(** * opentransit-metrics: the Redux actions of the frontend

    A shallow embedding of [frontend/src/actions/index.js]: the expansion of a
    date-range selection into a list of days ([computeDates]), the S3 resource
    locations, the variable bindings of the three GraphQL queries, the four
    fetch thunks with their response handlers, and [handleGraphParams].

    Conventions of the embedding
    - A JavaScript value is a [jsval]; an identifier that the application
      keeps as a string or as [null]/[undefined] is a [jsstr].
    - A [Moment] built from a calendar-date string is the number of days
      since 1970-01-01 in the proleptic Gregorian calendar; both anchors of a
      selection are local midnights, so [diff(.., 'days')], [add(1, 'days')],
      [day()] and [format('YYYY-MM-DD')] are calendar operations.
    - A thunk is a state transformer over a [World]: the Redux store together
      with the trace of everything dispatched or requested so far. *)

From Stdlib Require Import ZArith List String Ascii Bool Lia DecimalString.
From Stdlib Require Import Sorted.
Import ListNotations.
Open Scope string_scope.
Open Scope Z_scope.
Set Warnings "-register-all".

(* ------------------------------------------------------------------ *)
(** ** JavaScript values *)

Module JS.

(** Values as they occur in the parameters, in the variable bindings and in
    the response payloads.  Numbers are the integer-valued ones.  An object is
    the list of its own properties in insertion order. *)
Inductive jsval : Type :=
| JUndefined
| JNull
| JBool (b : bool)
| JNum (z : Z)
| JStr (s : string)
| JArr (items : list jsval)
| JObj (fields : list (string * jsval)).

(** A string-valued property that may also be [null] or [undefined]. *)
Inductive jsstr : Type :=
| Undefined
| Null
| Str (s : string).

Definition of_jsstr (v : jsstr) : jsval :=
  match v with
  | Undefined => JUndefined
  | Null => JNull
  | Str s => JStr s
  end.

Definition jsstr_eqb (a b : jsstr) : bool :=
  match a, b with
  | Undefined, Undefined => true
  | Null, Null => true
  | Str s, Str t => String.eqb s t
  | _, _ => false
  end.

(** [a !== b] on strings, [null] and [undefined]. *)
Definition strict_neq (a b : jsstr) : bool := negb (jsstr_eqb a b).

(** ToBoolean. *)
Definition truthy (v : jsval) : bool :=
  match v with
  | JUndefined | JNull => false
  | JBool b => b
  | JNum z => negb (z =? 0)
  | JStr s => negb (String.eqb s EmptyString)
  | JArr _ | JObj _ => true
  end.

Definition truthy_str (v : jsstr) : bool := truthy (of_jsstr v).

(** Template-literal conversion of an identifier to a string. *)
Definition to_String (v : jsstr) : string :=
  match v with
  | Undefined => "undefined"
  | Null => "null"
  | Str s => s
  end.

Fixpoint assoc (key : string) (fields : list (string * jsval)) : option jsval :=
  match fields with
  | [] => None
  | (k, v) :: rest => if String.eqb k key then Some v else assoc key rest
  end.

Definition field (key : string) (fields : list (string * jsval)) : jsval :=
  match assoc key fields with
  | Some v => v
  | None => JUndefined
  end.

Definition decimal (n : nat) : string :=
  NilEmpty.string_of_uint (Nat.to_uint n).

Definition char_at (s : string) (n : nat) : jsval :=
  match String.get n s with
  | Some c => JStr (String c EmptyString)
  | None => JUndefined
  end.

(** [v.name] for a property name that is not an array index.  [None] is the
    TypeError raised when [v] is [null] or [undefined]. *)
Definition get_prop (v : jsval) (name : string) : option jsval :=
  match v with
  | JUndefined | JNull => None
  | JBool _ | JNum _ => Some JUndefined
  | JStr s =>
      Some (if String.eqb name "length"
            then JNum (Z.of_nat (String.length s)) else JUndefined)
  | JArr items =>
      Some (if String.eqb name "length"
            then JNum (Z.of_nat (List.length items)) else JUndefined)
  | JObj fields => Some (field name fields)
  end.

(** [v[n]], with the same convention for the TypeError. *)
Definition get_index (v : jsval) (n : nat) : option jsval :=
  match v with
  | JUndefined | JNull => None
  | JBool _ | JNum _ => Some JUndefined
  | JStr s => Some (char_at s n)
  | JArr items => Some (nth n items JUndefined)
  | JObj fields => Some (field (decimal n) fields)
  end.

(** *** JSON.stringify *)

Definition hex_digit (n : N) : ascii :=
  if (n <? 10)%N then ascii_of_N (48 + n) else ascii_of_N (87 + n).

(** The escape of one character inside a JSON string literal. *)
Definition escape_char (c : ascii) : string :=
  let n := N_of_ascii c in
  if (n =? 34)%N then String "\" (String c EmptyString)
  else if (n =? 92)%N then String "\" (String "\" EmptyString)
  else if (n =? 8)%N then "\b"
  else if (n =? 9)%N then "\t"
  else if (n =? 10)%N then "\n"
  else if (n =? 12)%N then "\f"
  else if (n =? 13)%N then "\r"
  else if (n <? 32)%N then
    "\u00" ++ String (hex_digit (n / 16)) (String (hex_digit (n mod 16)) EmptyString)
  else String c EmptyString.

Fixpoint escape (s : string) : string :=
  match s with
  | EmptyString => EmptyString
  | String c rest => escape_char c ++ escape rest
  end.

Definition dquote : string := String (ascii_of_N 34) EmptyString.

Definition quote (s : string) : string := dquote ++ escape s ++ dquote.

Definition number_to_string (z : Z) : string :=
  (if z <? 0 then "-" else EmptyString) ++ decimal (Z.to_nat (Z.abs z)).

Fixpoint join (sep : string) (parts : list string) : string :=
  match parts with
  | [] => EmptyString
  | [p] => p
  | p :: rest => p ++ sep ++ join sep rest
  end.

(** The serialization of a value that sits inside an array or an object;
    [None] for [undefined], which an object omits and an array prints as
    [null]. *)
Fixpoint stringify_value (v : jsval) : option string :=
  match v with
  | JUndefined => None
  | JNull => Some "null"
  | JBool true => Some "true"
  | JBool false => Some "false"
  | JNum z => Some (number_to_string z)
  | JStr s => Some (quote s)
  | JArr items =>
      let item v := match stringify_value v with Some s => s | None => "null" end in
      Some ("[" ++ join "," (map item items) ++ "]")
  | JObj fields =>
      let member (kv : string * jsval) :=
        match stringify_value (snd kv) with
        | Some s => [quote (fst kv) ++ ":" ++ s]
        | None => []
        end in
      Some ("{" ++ join "," (flat_map member fields) ++ "}")
  end.

(** [JSON.stringify] of an object literal. *)
Definition JSON_stringify (fields : list (string * jsval)) : string :=
  match stringify_value (JObj fields) with
  | Some s => s
  | None => EmptyString
  end.

(** [s.replace(/-/g, '/')]. *)
Fixpoint replace_dashes (s : string) : string :=
  match s with
  | EmptyString => EmptyString
  | String c rest =>
      String (if Ascii.eqb c "-" then "/"%char else c) (replace_dashes rest)
  end.

End JS.
Import JS.

(* ------------------------------------------------------------------ *)
(** ** Calendar dates (the part of Moment that the actions use) *)

Module Calendar.

(** Days since 1970-01-01 of the civil date [y-m-d]. *)
Definition days_from_civil (y m d : Z) : Z :=
  let y' := if m <=? 2 then y - 1 else y in
  let era := y' / 400 in
  let yoe := y' - era * 400 in
  let doy := (153 * (if m >? 2 then m - 3 else m + 9) + 2) / 5 + d - 1 in
  let doe := yoe * 365 + yoe / 4 - yoe / 100 + doy in
  era * 146097 + doe - 719468.

(** The civil date of a day number. *)
Definition civil_from_days (z : Z) : Z * Z * Z :=
  let z := z + 719468 in
  let era := z / 146097 in
  let doe := z - era * 146097 in
  let yoe := (doe - doe / 1460 + doe / 36524 - doe / 146096) / 365 in
  let doy := doe - (365 * yoe + yoe / 4 - yoe / 100) in
  let mp := (5 * doy + 2) / 153 in
  let d := doy - (153 * mp + 2) / 5 + 1 in
  let m := if mp <? 10 then mp + 3 else mp - 9 in
  let y := yoe + era * 400 + (if m <=? 2 then 1 else 0) in
  (y, m, d).

Definition is_leap (y : Z) : bool :=
  ((y mod 4 =? 0) && negb (y mod 100 =? 0)) || (y mod 400 =? 0).

Definition days_in_month (y m : Z) : Z :=
  if m =? 2 then (if is_leap y then 29 else 28)
  else if (m =? 4) || (m =? 6) || (m =? 9) || (m =? 11) then 30
  else 31.

Definition digit_of (c : ascii) : option Z :=
  let n := Z.of_N (N_of_ascii c) in
  if (48 <=? n) && (n <=? 57) then Some (n - 48) else None.

Fixpoint number_of (acc : Z) (cs : list ascii) : option Z :=
  match cs with
  | [] => Some acc
  | c :: rest =>
      match digit_of c with
      | Some d => number_of (acc * 10 + d) rest
      | None => None
      end
  end.

(** [Moment(s)] for a string in the form [YYYY-MM-DD].  [None] is an invalid
    moment: the string has another form, or names no day of the calendar. *)
Definition Moment (s : string) : option Z :=
  match list_ascii_of_string s with
  | [y1; y2; y3; y4; s1; m1; m2; s2; d1; d2] =>
      if Ascii.eqb s1 "-" && Ascii.eqb s2 "-" then
        match number_of 0 [y1; y2; y3; y4], number_of 0 [m1; m2], number_of 0 [d1; d2] with
        | Some y, Some m, Some d =>
            if (1 <=? m) && (m <=? 12) && (1 <=? d) && (d <=? days_in_month y m)
            then Some (days_from_civil y m d)
            else None
        | _, _, _ => None
        end
      else None
  | _ => None
  end.

(** [m.day()]: 0 is Sunday, 6 is Saturday; 1970-01-01 was a Thursday. *)
Definition day (m : Z) : Z := (m + 4) mod 7.

Fixpoint zeros (n : nat) : string :=
  match n with
  | O => EmptyString
  | S n' => String "0" (zeros n')
  end.

(** Moment's [zeroFill(number, targetLength)]. *)
Definition zeroFill (number : Z) (targetLength : nat) : string :=
  let absNumber := decimal (Z.to_nat (Z.abs number)) in
  (if 0 <=? number then EmptyString else "-")
  ++ zeros (targetLength - String.length absNumber) ++ absNumber.

(** [m.format('YYYY-MM-DD')]. *)
Definition format (m : Z) : string :=
  let '(y, mo, d) := civil_from_days m in
  zeroFill y 4 ++ "-" ++ zeroFill mo 2 ++ "-" ++ zeroFill d 2.

End Calendar.

(* ------------------------------------------------------------------ *)
(** ** The data model *)

(** [daysOfTheWeek] is read at the index [day()]; an index without an entry
    reads as [undefined], which is false. *)
Record DateRangeSelection : Type := {
  date : string;
  startDate : string;
  startTime : jsstr;
  endTime : jsstr;
  daysOfTheWeek : list bool
}.

Record SelectionParams : Type := {
  agencyId : jsstr;
  routeId : jsstr;
  directionId : jsstr;
  startStopId : jsstr;
  endStopId : jsstr;
  firstDateRange : DateRangeSelection;
  secondDateRange : option DateRangeSelection
}.

Definition weekday_flag (flags : list bool) (d : Z) : bool :=
  nth (Z.to_nat d) flags false.

(** The body of the [for] loop of [computeDates], run [n] times from
    [startMoment]. *)
Fixpoint walk (flags : list bool) (n : nat) (startMoment : Z) : list string :=
  match n with
  | O => []
  | S n' =>
      (if weekday_flag flags (Calendar.day startMoment)
       then [Calendar.format startMoment] else [])
      ++ walk flags n' (startMoment + 1)
  end.

(* ------------------------------------------------------------------ *)
(** ** Actions, store and effects *)

(** The three scopes that query the GraphQL endpoint. *)
Inductive Scope : Type := TripMetrics | RouteMetrics | AgencyMetrics.

Inductive Action : Type :=
| REQUEST_TRIP_METRICS
| ERROR_TRIP_METRICS (error : jsval)
| RECEIVED_TRIP_METRICS (data : jsval)
| REQUEST_ROUTE_METRICS (variablesJson : string)
| ERROR_ROUTE_METRICS (error : jsval)
| RECEIVED_ROUTE_METRICS (variablesJson : string) (data : jsval)
| REQUEST_AGENCY_METRICS (variablesJson : string)
| ERROR_AGENCY_METRICS (error : jsval)
| RECEIVED_AGENCY_METRICS (variablesJson : string) (data : jsval)
| REQUEST_ARRIVALS
| RECEIVED_ARRIVALS (data : jsval) (url : jsstr)
| ERROR_ARRIVALS (error : jsval)
| RECEIVED_GRAPH_PARAMS (params : SelectionParams).

(** The slices of the store that the thunks read, and what a result
    carries. *)
Record MetricsResult : Type := {
  variablesJson : jsstr;
  data : jsval;
  error : jsval
}.

Record ArrivalsResult : Type := {
  url : jsstr;
  arrivalsData : jsval;
  arrivalsError : jsval
}.

Record State : Type := {
  graphParams : SelectionParams;
  tripMetrics : MetricsResult;
  routeMetrics : MetricsResult;
  agencyMetrics : MetricsResult;
  arrivals : ArrivalsResult
}.

(** An [axios.get].  A GraphQL request goes to [/api/graphql] under
    [MetricsBaseURL] with the query document of its scope (a fixed text, its
    runs of white space replaced by one space) and the serialized variables;
    the request also names the handlers chained on it, which depend on the
    scope and close over [variablesJson] or [s3Url]. *)
Inductive Request : Type :=
| GraphQL (scope : Scope) (variables : string)
| ArrivalsFile (s3Url : string).

(** How a request ends: with a response, of which the handlers read [data],
    or with a rejection value. *)
Inductive Outcome : Type :=
| Fulfilled (response_data : jsval)
| Rejected (err : jsval).

Inductive Event : Type :=
| Dispatched (a : Action)
| Sent (r : Request).

Record World : Type := {
  store : State;
  trace : list Event
}.

(** Thunks run in a state monad over the world. *)
Definition Thunk (A : Type) : Type := World -> A * World.

Definition ret {A : Type} (a : A) : Thunk A := fun w => (a, w).

Definition bind {A B : Type} (m : Thunk A) (k : A -> Thunk B) : Thunk B :=
  fun w => let (a, w') := m w in k a w'.

Notation "x <- m ;; k" := (bind m (fun x => k))
  (at level 61, m at next level, right associativity).
Notation "m ;; k" := (bind m (fun _ => k))
  (at level 61, right associativity).

Definition getState : Thunk State := fun w => (store w, w).

Definition axios_get (r : Request) : Thunk unit :=
  fun w => (tt, {| store := store w; trace := trace w ++ [Sent r] |}).

Definition when (c : bool) (m : Thunk unit) : Thunk unit :=
  if c then m else ret tt.

(** The world a thunk leaves. *)
Definition run (m : Thunk unit) (w : World) : World := snd (m w).

Definition is_sent (e : Event) : bool :=
  match e with
  | Sent _ => true
  | Dispatched _ => false
  end.

(** The network calls of a trace. *)
Definition network_calls (t : list Event) : nat :=
  List.length (filter is_sent t).

(** The transitions of the agency, route and trip results. *)
Definition is_metrics_transition (e : Event) : bool :=
  match e with
  | Dispatched a =>
      match a with
      | REQUEST_TRIP_METRICS | ERROR_TRIP_METRICS _ | RECEIVED_TRIP_METRICS _
      | REQUEST_ROUTE_METRICS _ | ERROR_ROUTE_METRICS _ | RECEIVED_ROUTE_METRICS _ _
      | REQUEST_AGENCY_METRICS _ | ERROR_AGENCY_METRICS _
      | RECEIVED_AGENCY_METRICS _ _ => true
      | _ => false
      end
  | Sent _ => false
  end.

(** Modelled from the spec: the reducers of the store, which are not among
    the sources.  A Requested transition records the fingerprint it carries
    and clears the result; a Received transition records fingerprint (or
    location) and data; an Errored transition records the message; the
    selection is replaced wholesale. *)
Definition rootReducer (s : State) (a : Action) : State :=
  let set_trip r := {| graphParams := graphParams s; tripMetrics := r;
                       routeMetrics := routeMetrics s;
                       agencyMetrics := agencyMetrics s; arrivals := arrivals s |} in
  let set_route r := {| graphParams := graphParams s; tripMetrics := tripMetrics s;
                        routeMetrics := r;
                        agencyMetrics := agencyMetrics s; arrivals := arrivals s |} in
  let set_agency r := {| graphParams := graphParams s; tripMetrics := tripMetrics s;
                         routeMetrics := routeMetrics s;
                         agencyMetrics := r; arrivals := arrivals s |} in
  let set_arrivals r := {| graphParams := graphParams s; tripMetrics := tripMetrics s;
                           routeMetrics := routeMetrics s;
                           agencyMetrics := agencyMetrics s; arrivals := r |} in
  match a with
  | REQUEST_TRIP_METRICS =>
      set_trip {| variablesJson := variablesJson (tripMetrics s);
                  data := JNull; error := JNull |}
  | ERROR_TRIP_METRICS e =>
      set_trip {| variablesJson := variablesJson (tripMetrics s);
                  data := JNull; error := e |}
  | RECEIVED_TRIP_METRICS d =>
      set_trip {| variablesJson := variablesJson (tripMetrics s);
                  data := d; error := JNull |}
  | REQUEST_ROUTE_METRICS j =>
      set_route {| variablesJson := Str j; data := JNull; error := JNull |}
  | ERROR_ROUTE_METRICS e =>
      set_route {| variablesJson := variablesJson (routeMetrics s);
                   data := JNull; error := e |}
  | RECEIVED_ROUTE_METRICS j d =>
      set_route {| variablesJson := Str j; data := d; error := JNull |}
  | REQUEST_AGENCY_METRICS j =>
      set_agency {| variablesJson := Str j; data := JNull; error := JNull |}
  | ERROR_AGENCY_METRICS e =>
      set_agency {| variablesJson := variablesJson (agencyMetrics s);
                    data := JNull; error := e |}
  | RECEIVED_AGENCY_METRICS j d =>
      set_agency {| variablesJson := Str j; data := d; error := JNull |}
  | REQUEST_ARRIVALS => s
  | RECEIVED_ARRIVALS d u =>
      set_arrivals {| url := u; arrivalsData := d; arrivalsError := JNull |}
  | ERROR_ARRIVALS e =>
      set_arrivals {| url := url (arrivals s); arrivalsData := JNull;
                      arrivalsError := e |}
  | RECEIVED_GRAPH_PARAMS p =>
      {| graphParams := p; tripMetrics := tripMetrics s;
         routeMetrics := routeMetrics s; agencyMetrics := agencyMetrics s;
         arrivals := arrivals s |}
  end.

(** *** Reading the response payloads *)

(** [v.name] where [v] is known to be truthy. *)
Definition prop (v : jsval) (name : string) : jsval :=
  match get_prop v name with
  | Some x => x
  | None => JUndefined
  end.

(** [v && v.name]. *)
Definition and_then (v : jsval) (name : string) : jsval :=
  if truthy v then prop v name else v.

(** [v ? v.name : null]. *)
Definition child (v : jsval) (name : string) : jsval :=
  if truthy v then prop v name else JNull.

(** [v.errors[0].message]; [None] when reading it raises a TypeError. *)
Definition first_error_message (v : jsval) : option jsval :=
  match get_prop v "errors" with
  | Some errors =>
      match get_index errors 0 with
      | Some e => get_prop e "message"
      | None => None
      end
  | None => None
  end.

(** The [errStr] of the [catch] handlers of the three GraphQL scopes:
    [err.response && err.response.data && err.response.data.errors
       ? err.response.data.errors[0].message : err.message]. *)
Definition errStr (err : jsval) : option jsval :=
  match get_prop err "response" with
  | Some response =>
      let response_data := and_then response "data" in
      if truthy (and_then response_data "errors")
      then first_error_message response_data
      else get_prop err "message"
  | None => None
  end.

Section Actions.

(** Constants of [config] and [UIConstants].  [MAX_DATE_RANGE] is a number
    of days.  [Agencies] is the configured list of agencies, of which the
    actions read the id of the first. *)
Variable MAX_DATE_RANGE : nat.
Variable S3Bucket : string.
Variable ArrivalsVersion : string.
Variable Agencies_0_id : string.

(** The message the engine gives to the TypeError of reading a property of
    [null] or [undefined]. *)
Variable TypeError_message : string.

(** The reducer of the store. *)
Variable reducer : State -> Action -> State.

Definition dispatch (a : Action) : Thunk unit :=
  fun w => (tt, {| store := reducer (store w) a;
                   trace := trace w ++ [Dispatched a] |}).

(** With an invalid moment [deltaDays] is [NaN], the loop condition is false
    at once and the result is empty. *)
Definition computeDates (dateRangeParams : DateRangeSelection) : list string :=
  match Calendar.Moment (date dateRangeParams),
        Calendar.Moment (startDate dateRangeParams) with
  | Some endMoment, Some startMoment =>
      let deltaDays := endMoment - startMoment in
      let numberOfDaysBack := Z.abs deltaDays + 1 in
      let endMoment := if deltaDays <? 0 then startMoment else endMoment in
      let numberOfDaysBack :=
        if numberOfDaysBack >? Z.of_nat MAX_DATE_RANGE
        then Z.of_nat MAX_DATE_RANGE
        else numberOfDaysBack in
      walk (daysOfTheWeek dateRangeParams) (Z.to_nat numberOfDaysBack) startMoment
  | _, _ => []
  end.

Definition generateArrivalsURL (agencyId dateStr routeId : string) : string :=
  "https://" ++ S3Bucket ++ ".s3.amazonaws.com/arrivals/" ++ ArrivalsVersion
  ++ "/" ++ agencyId ++ "/" ++ replace_dashes dateStr
  ++ "/arrivals_" ++ ArrivalsVersion ++ "_" ++ agencyId ++ "_" ++ dateStr
  ++ "_" ++ routeId ++ ".json.gz?aj".

Definition strings (l : list string) : jsval := JArr (map JStr l).

(** The members added to [variables] when there is a second date range. *)
Definition secondRangeVariables (params : SelectionParams)
  : list (string * jsval) :=
  match secondDateRange params with
  | Some second =>
      [("dates2", strings (computeDates second));
       ("startTime2", of_jsstr (startTime second));
       ("endTime2", of_jsstr (endTime second))]
  | None => []
  end.

Definition is_some {A : Type} (o : option A) : bool :=
  match o with
  | Some _ => true
  | None => false
  end.

(** The [variables] of [fetchTripMetrics]. *)
Definition tripVariables (params : SelectionParams) : list (string * jsval) :=
  let dates := computeDates (firstDateRange params) in
  [("agencyId", of_jsstr (agencyId params));
   ("routeId", of_jsstr (routeId params));
   ("directionId", of_jsstr (directionId params));
   ("startStopId", of_jsstr (startStopId params));
   ("endStopId", of_jsstr (endStopId params));
   ("dates", strings dates);
   ("startTime", of_jsstr (startTime (firstDateRange params)));
   ("endTime", of_jsstr (endTime (firstDateRange params)));
   ("includeTimeRanges",
      JBool (negb (truthy_str (startTime (firstDateRange params)))));
   ("includeByDay",
      JBool (negb (is_some (secondDateRange params))
             && (1 <? List.length dates)%nat));
   ("includeTimeRanges2",
      JBool (match secondDateRange params with
             | Some second => negb (truthy_str (startTime second))
             | None => false
             end));
   ("dualDateRange", JBool (is_some (secondDateRange params)))]
  ++ secondRangeVariables params.

(** The [variables] of [fetchRouteMetrics]. *)
Definition routeVariables (params : SelectionParams) : list (string * jsval) :=
  let dates := computeDates (firstDateRange params) in
  [("agencyId", JStr Agencies_0_id);
   ("routeId", of_jsstr (routeId params));
   ("dates", strings dates);
   ("startTime", of_jsstr (startTime (firstDateRange params)));
   ("endTime", of_jsstr (endTime (firstDateRange params)));
   ("dualDateRange", JBool (is_some (secondDateRange params)))]
  ++ secondRangeVariables params.

(** The object serialized by [fetchAgencyMetrics]. *)
Definition agencyVariables (params : SelectionParams) : list (string * jsval) :=
  let dates := computeDates (firstDateRange params) in
  [("agencyId", JStr Agencies_0_id);
   ("dates", strings dates);
   ("startTime", of_jsstr (startTime (firstDateRange params)));
   ("endTime", of_jsstr (endTime (firstDateRange params)))].

Definition fetchTripMetrics (params : SelectionParams) : Thunk unit :=
  let variables := tripVariables params in
  dispatch REQUEST_TRIP_METRICS ;;
  axios_get (GraphQL TripMetrics (JSON_stringify variables)).

Definition resetTripMetrics : Thunk unit :=
  dispatch (RECEIVED_TRIP_METRICS JNull).

Definition fetchRouteMetrics (params : SelectionParams) : Thunk unit :=
  s <- getState ;;
  let recorded := variablesJson (routeMetrics s) in
  let variablesJson := JSON_stringify (routeVariables params) in
  when (strict_neq recorded (Str variablesJson))
    (dispatch (REQUEST_ROUTE_METRICS variablesJson) ;;
     axios_get (GraphQL RouteMetrics variablesJson)).

Definition fetchAgencyMetrics (params : SelectionParams) : Thunk unit :=
  s <- getState ;;
  let recorded := variablesJson (agencyMetrics s) in
  let variablesJson := JSON_stringify (agencyVariables params) in
  when (strict_neq recorded (Str variablesJson))
    (dispatch (REQUEST_AGENCY_METRICS variablesJson) ;;
     axios_get (GraphQL AgencyMetrics variablesJson)).

Definition arrivalsURL (params : SelectionParams) : string :=
  let dateStr := date (firstDateRange params) in
  let agencyId := agencyId params in
  generateArrivalsURL (to_String agencyId) dateStr (to_String (routeId params)).

Definition fetchArrivals (params : SelectionParams) : Thunk unit :=
  let s3Url := arrivalsURL params in
  s <- getState ;;
  when (strict_neq (url (arrivals s)) (Str s3Url))
    (dispatch REQUEST_ARRIVALS ;;
     axios_get (ArrivalsFile s3Url)).

Definition resetArrivals : Thunk unit :=
  dispatch (RECEIVED_ARRIVALS JNull Null).

(** *** The handlers chained on the requests *)

(** The TypeError that a [then] handler raises, as the [catch] handler sees
    it: it has a message and no [response]. *)
Definition TypeError : jsval := JObj [("message", JStr TypeError_message)].

(** The [then] handler of [fetchTripMetrics]; [None] when it raises. *)
Definition tripMetricsReceived (responseData : jsval) : option Action :=
  if truthy (and_then responseData "errors") then
    option_map ERROR_TRIP_METRICS (first_error_message responseData)
  else
    let agencyMetrics := child (and_then responseData "data") "agency" in
    let routeMetrics := child agencyMetrics "route" in
    let tripMetrics := child routeMetrics "trip" in
    Some (RECEIVED_TRIP_METRICS tripMetrics).

(** The [then] handler of [fetchRouteMetrics]. *)
Definition routeMetricsReceived (variablesJson : string) (responseData : jsval)
  : option Action :=
  if truthy (and_then responseData "errors") then
    option_map ERROR_ROUTE_METRICS (first_error_message responseData)
  else
    let agencyMetrics := child (and_then responseData "data") "agency" in
    let routeMetrics := child agencyMetrics "route" in
    Some (RECEIVED_ROUTE_METRICS variablesJson routeMetrics).

(** The [then] handler of [fetchAgencyMetrics]. *)
Definition agencyMetricsReceived (variablesJson : string) (responseData : jsval)
  : option Action :=
  if truthy (and_then responseData "errors") then
    option_map ERROR_AGENCY_METRICS (first_error_message responseData)
  else
    let agencyMetrics := child (and_then responseData "data") "agency" in
    Some (RECEIVED_AGENCY_METRICS variablesJson agencyMetrics).

Definition received (scope : Scope) (variablesJson : string)
  : jsval -> option Action :=
  match scope with
  | TripMetrics => tripMetricsReceived
  | RouteMetrics => routeMetricsReceived variablesJson
  | AgencyMetrics => agencyMetricsReceived variablesJson
  end.

Definition errored (scope : Scope) : jsval -> Action :=
  match scope with
  | TripMetrics => ERROR_TRIP_METRICS
  | RouteMetrics => ERROR_ROUTE_METRICS
  | AgencyMetrics => ERROR_AGENCY_METRICS
  end.

(** The [catch] handler of a GraphQL scope; [None] when it raises itself and
    nothing is dispatched. *)
Definition failed (scope : Scope) (err : jsval) : option Action :=
  option_map (errored scope) (errStr err).

(** The action that [.then(..).catch(..)] dispatches when the request ends:
    the [catch] handler also receives what the [then] handler raises. *)
Definition settled (r : Request) (o : Outcome) : option Action :=
  match r with
  | GraphQL scope variablesJson =>
      match o with
      | Fulfilled responseData =>
          match received scope variablesJson responseData with
          | Some a => Some a
          | None => failed scope TypeError
          end
      | Rejected err => failed scope err
      end
  | ArrivalsFile s3Url =>
      match o with
      | Fulfilled responseData =>
          Some (RECEIVED_ARRIVALS responseData (Str s3Url))
      | Rejected _ => Some (ERROR_ARRIVALS (JStr "No data."))
      end
  end.

(** The continuation of a request, run when its outcome arrives. *)
Definition settle (r : Request) (o : Outcome) : Thunk unit :=
  match settled r o with
  | Some a => dispatch a
  | None => ret tt
  end.

(** *** The reaction to a new selection *)

Definition string_neq (a b : string) : bool := negb (String.eqb a b).

Definition handleGraphParams (params : SelectionParams) : Thunk unit :=
  s <- getState ;;
  let oldParams := graphParams s in
  dispatch (RECEIVED_GRAPH_PARAMS params) ;;
  s' <- getState ;;
  let graphParams := graphParams s' in
  when (string_neq (date (firstDateRange oldParams))
                   (date (firstDateRange graphParams))
        || strict_neq (routeId oldParams) (routeId graphParams)
        || strict_neq (agencyId oldParams) (agencyId graphParams))
    resetArrivals ;;
  when (truthy (JStr (date (firstDateRange graphParams))))
    (fetchAgencyMetrics graphParams) ;;
  when (truthy_str (agencyId graphParams) && truthy_str (routeId graphParams))
    (fetchRouteMetrics graphParams) ;;
  if truthy_str (agencyId graphParams)
     && truthy_str (routeId graphParams)
     && truthy_str (directionId graphParams)
     && truthy_str (startStopId graphParams)
     && truthy_str (endStopId graphParams)
  then fetchTripMetrics graphParams
  else resetTripMetrics.

End Actions.

(* ------------------------------------------------------------------ *)
(** ** Auxiliary definitions for the statements *)

(** The days that the loop of [computeDates] visits and keeps. *)
Fixpoint walk_days (flags : list bool) (n : nat) (startMoment : Z) : list Z :=
  match n with
  | O => []
  | S n' =>
      (if weekday_flag flags (Calendar.day startMoment)
       then [startMoment] else [])
      ++ walk_days flags n' (startMoment + 1)
  end.

(** Every run of a thunk only adds to the trace. *)
Definition extends (m : Thunk unit) : Prop :=
  forall w, exists rest, trace (run m w) = (trace w ++ rest)%list.

(** The string holds no dash. *)
Fixpoint dash_free (s : string) : bool :=
  match s with
  | EmptyString => true
  | String c rest => negb (Ascii.eqb c "-") && dash_free rest
  end.

Definition no_dash (s : string) : Prop := dash_free s = true.

(** Two selections that differ at most in [agencyId]. *)
Definition same_but_agencyId (p q : SelectionParams) : Prop :=
  routeId p = routeId q /\ directionId p = directionId q
  /\ startStopId p = startStopId q /\ endStopId p = endStopId q
  /\ firstDateRange p = firstDateRange q
  /\ secondDateRange p = secondDateRange q.

Definition is_received (a : Action) : bool :=
  match a with
  | RECEIVED_TRIP_METRICS _ | RECEIVED_ROUTE_METRICS _ _
  | RECEIVED_AGENCY_METRICS _ _ => true
  | _ => false
  end.

(** *** Sample data *)

Definition everyDay : list bool := [true; true; true; true; true; true; true].
Definition monToFri : list bool := [false; true; true; true; true; true; false].
Definition sundayOnly : list bool := [true; false; false; false; false; false; false].
Definition noDay : list bool := [false; false; false; false; false; false; false].

Definition range (startDate date : string) (days : list bool)
  : DateRangeSelection :=
  {| date := date; startDate := startDate; startTime := Null; endTime := Null;
     daysOfTheWeek := days |}.

Definition selection (agency route : string) (r : DateRangeSelection)
  : SelectionParams :=
  {| agencyId := Str agency; routeId := Str route; directionId := Str "1";
     startStopId := Str "4015"; endStopId := Str "4016";
     firstDateRange := r; secondDateRange := None |}.

Definition emptyResult : MetricsResult :=
  {| variablesJson := Null; data := JNull; error := JNull |}.

Definition initialState (p : SelectionParams) : State :=
  {| graphParams := p; tripMetrics := emptyResult; routeMetrics := emptyResult;
     agencyMetrics := emptyResult;
     arrivals := {| url := Null; arrivalsData := JNull; arrivalsError := JNull |} |}.

Definition initialWorld (p : SelectionParams) : World :=
  {| store := initialState p; trace := [] |}.

(* ------------------------------------------------------------------ *)
(** ** The other actions of the file *)

(** [obj[key] = v] on the own properties of an object: a property that
    exists keeps its place and takes the value, a new one goes last. *)
Fixpoint set_prop (fields : list (string * jsval)) (key : string) (v : jsval)
  : list (string * jsval) :=
  match fields with
  | [] => [(key, v)]
  | (k, x) :: rest =>
      if String.eqb k key then (k, v) :: rest
      else (k, x) :: set_prop rest key v
  end.

(** The loop of the [then] handler of [fetchRoutes], over routes that are
    objects, from index [i] on:
    [routes.forEach((route, i) => { route.agencyId = agencyId; route.routeIndex = i; })]. *)
Fixpoint annotateRoutes_from (i : nat) (agencyId : string)
  (routes : list (list (string * jsval))) : list (list (string * jsval)) :=
  match routes with
  | [] => []
  | route :: rest =>
      set_prop (set_prop route "agencyId" (JStr agencyId))
               "routeIndex" (JNum (Z.of_nat i))
      :: annotateRoutes_from (S i) agencyId rest
  end.

Definition annotateRoutes (agencyId : string)
  (routes : list (list (string * jsval))) : list (list (string * jsval)) :=
  annotateRoutes_from 0 agencyId routes.

(** [`${dates[i]}`] inside a template literal. *)
Definition date_at (dates : list string) (i : nat) : string :=
  match nth_error dates i with
  | Some d => d
  | None => "undefined"
  end.

(** The [variables] of [fetchDownload]. *)
Definition downloadVariables (MAX_DATE_RANGE : nat) (Agencies_0_id : string)
  (params : SelectionParams) : list (string * jsval) :=
  let dates := computeDates MAX_DATE_RANGE (firstDateRange params) in
  [("agencyId", JStr Agencies_0_id);
   ("routeId", of_jsstr (routeId params));
   ("dates", strings dates);
   ("directionId", of_jsstr (directionId params));
   ("startStopId", of_jsstr (startStopId params));
   ("endStopId", of_jsstr (endStopId params));
   ("startTime", of_jsstr (startTime (firstDateRange params)));
   ("endTime", of_jsstr (endTime (firstDateRange params)));
   ("dualDateRange", JBool (is_some (secondDateRange params)))].

(** The [downloadFilename] of [fetchDownload]. *)
Definition downloadFilename (MAX_DATE_RANGE : nat) (params : SelectionParams)
  : string :=
  let dates := computeDates MAX_DATE_RANGE (firstDateRange params) in
  let routeId := to_String (routeId params) in
  if (List.length dates =? 1)%nat
  then "arrivals_" ++ routeId ++ "_" ++ date_at dates 0 ++ ".csv"
  else "arrivals_" ++ routeId ++ "_" ++ date_at dates 0 ++ "_"
       ++ date_at dates 1 ++ ".csv".

(** What [fetchDownload] does: one request to [/api/arrival_download] with
    the serialized variables, whose response is saved under the file name. *)
Record Download : Type := {
  download_variables : string;
  download_filename : string
}.

Definition fetchDownload (MAX_DATE_RANGE : nat) (Agencies_0_id : string)
  (params : SelectionParams) : Download :=
  {| download_variables :=
       JSON_stringify (downloadVariables MAX_DATE_RANGE Agencies_0_id params);
     download_filename := downloadFilename MAX_DATE_RANGE params |}.

(** The own enumerable properties that an object spread copies from a
    value: none from [null], [undefined], a boolean or a number, the indexed
    characters of a string, the indexed items of an array. *)
Fixpoint indexed (i : nat) (items : list jsval) : list (string * jsval) :=
  match items with
  | [] => []
  | x :: rest => (decimal i, x) :: indexed (S i) rest
  end.

Definition own_properties (v : jsval) : list (string * jsval) :=
  match v with
  | JUndefined | JNull | JBool _ | JNum _ => []
  | JStr s =>
      indexed 0 (map (fun c => JStr (String c EmptyString))
                     (list_ascii_of_string s))
  | JArr items => indexed 0 items
  | JObj fields => fields
  end.

(** [{...target, ...source}] once [target] has been copied.  The statements
    below read the result by key only; the place that the engine gives to
    keys that are array indices is not modelled. *)
Definition spread_into (target props : list (string * jsval))
  : list (string * jsval) :=
  fold_left (fun acc kv => set_prop acc (fst kv) (snd kv)) props target.

(** The location of the router, and the action that [updateQuery]
    dispatches, which has the same three members. *)
Record Location : Type := {
  type : jsval;
  payload : jsval;
  query : jsval
}.

(** [{ ...currentLocation.query, ...queryParams }]. *)
Definition newQuery (currentLocation : Location) (queryParams : jsval)
  : list (string * jsval) :=
  spread_into (spread_into [] (own_properties (query currentLocation)))
              (own_properties queryParams).

Definition updateQuery (currentLocation : Location) (queryParams : jsval)
  : Location :=
  {| type := type currentLocation;
     payload := payload currentLocation;
     query := JObj (newQuery currentLocation queryParams) |}.

(** *** Further auxiliary definitions *)

(** Every run of the thunk adds only events that satisfy [P]. *)
Definition emits (P : Event -> Prop) (m : Thunk unit) : Prop :=
  forall w, exists rest,
    trace (run m w) = (trace w ++ rest)%list /\ Forall P rest.

(** The slice of the store that an action or a request belongs to. *)
Inductive Slice : Type :=
| TripSlice | RouteSlice | AgencySlice | ArrivalsSlice | ParamsSlice.

Definition slice_of_scope (scope : Scope) : Slice :=
  match scope with
  | TripMetrics => TripSlice
  | RouteMetrics => RouteSlice
  | AgencyMetrics => AgencySlice
  end.

Definition slice_of_action (a : Action) : Slice :=
  match a with
  | REQUEST_TRIP_METRICS | ERROR_TRIP_METRICS _ | RECEIVED_TRIP_METRICS _ =>
      TripSlice
  | REQUEST_ROUTE_METRICS _ | ERROR_ROUTE_METRICS _
  | RECEIVED_ROUTE_METRICS _ _ => RouteSlice
  | REQUEST_AGENCY_METRICS _ | ERROR_AGENCY_METRICS _
  | RECEIVED_AGENCY_METRICS _ _ => AgencySlice
  | REQUEST_ARRIVALS | RECEIVED_ARRIVALS _ _ | ERROR_ARRIVALS _ => ArrivalsSlice
  | RECEIVED_GRAPH_PARAMS _ => ParamsSlice
  end.

Definition slice_of_request (r : Request) : Slice :=
  match r with
  | GraphQL scope _ => slice_of_scope scope
  | ArrivalsFile _ => ArrivalsSlice
  end.

Definition slice_of_event (e : Event) : Slice :=
  match e with
  | Dispatched a => slice_of_action a
  | Sent r => slice_of_request r
  end.

Definition in_slice (sl : Slice) (e : Event) : Prop := slice_of_event e = sl.

(** The event belongs to the agency, route or trip metrics. *)
Definition in_metrics_slice (e : Event) : Prop :=
  in_slice AgencySlice e \/ in_slice RouteSlice e \/ in_slice TripSlice e.




(** Every key occurs once. *)
Definition distinct_keys (fields : list (string * jsval)) : Prop :=
  NoDup (map fst fields).

(** The selection names agency, route, direction and both stops. *)
Definition complete (p : SelectionParams) : bool :=
  truthy_str (agencyId p) && truthy_str (routeId p)
  && truthy_str (directionId p) && truthy_str (startStopId p)
  && truthy_str (endStopId p).

(* ------------------------------------------------------------------ *)
(** ** Properties of [computeDates] *)

Lemma walk_map_format flags n b :
  walk flags n b = map Calendar.format (walk_days flags n b).
Proof.
  revert b; induction n as [|n IH]; intro b; simpl; [reflexivity|].
  rewrite map_app, IH.
  destruct (weekday_flag flags (Calendar.day b)); reflexivity.
Qed.

Lemma walk_days_length flags n b :
  (List.length (walk_days flags n b) <= n)%nat.
Proof.
  revert b; induction n as [|n IH]; intro b; simpl; [lia|].
  rewrite length_app. specialize (IH (b + 1)).
  destruct (weekday_flag flags (Calendar.day b)); simpl; lia.
Qed.

Lemma walk_days_flagged flags n b :
  Forall (fun d => weekday_flag flags (Calendar.day d) = true)
         (walk_days flags n b).
Proof.
  revert b; induction n as [|n IH]; intro b; simpl; [constructor|].
  apply Forall_app; split; [|apply IH].
  destruct (weekday_flag flags (Calendar.day b)) eqn:E; repeat constructor.
  exact E.
Qed.

Lemma walk_days_within flags n b :
  Forall (fun d => b <= d < b + Z.of_nat n) (walk_days flags n b).
Proof.
  revert b; induction n as [|n IH]; intro b; simpl walk_days; [constructor|].
  apply Forall_app; split.
  - destruct (weekday_flag flags (Calendar.day b)); repeat constructor; lia.
  - eapply Forall_impl; [|apply IH]. simpl. intros d Hd. lia.
Qed.

(** The number of iterations of the loop never exceeds [MAX_DATE_RANGE]. *)
Lemma iterations_bounded (maxDays : nat) (numberOfDaysBack : Z) :
  (Z.to_nat (if numberOfDaysBack >? Z.of_nat maxDays then Z.of_nat maxDays
             else numberOfDaysBack) <= maxDays)%nat.
Proof.
  destruct (numberOfDaysBack >? Z.of_nat maxDays) eqn:E; lia.
Qed.

(** The walk of [computeDates] starts at [startDate], whichever anchor is
    the earlier, and goes forward: every entry of the result is a day from
    [startDate] up to [startDate] plus the distance of the anchors. *)
Lemma computeDates_walks_forward_from_startDate
  (maxDays : nat) (sel : DateRangeSelection) (e b : Z) :
  Calendar.Moment (date sel) = Some e ->
  Calendar.Moment (startDate sel) = Some b ->
  exists days,
    computeDates maxDays sel = map Calendar.format days
    /\ Forall (fun d => b <= d <= b + Z.abs (e - b)) days.
Proof.
  intros He Hb. unfold computeDates. rewrite He, Hb.
  set (n := Z.to_nat _). rewrite walk_map_format.
  eexists; split; [reflexivity|].
  eapply Forall_impl; [|apply walk_days_within].
  simpl. intros d Hd.
  assert (Z.of_nat n <= Z.abs (e - b) + 1)
    by (unfold n; destruct (Z.abs (e - b) + 1 >? Z.of_nat maxDays) eqn:E; lia).
  lia.
Qed.

(** The example of the specification: Monday to Friday of one week. *)
Example computeDates_monday_to_friday :
  computeDates 90 (range "2023-03-06" "2023-03-10" monToFri)
  = ["2023-03-06"; "2023-03-07"; "2023-03-08"; "2023-03-09"; "2023-03-10"].
Proof.
  vm_compute. reflexivity.
Qed.

(** Weekends are left out, and the guard rail cuts the walk. *)
Example computeDates_two_weeks_capped :
  computeDates 10 (range "2024-02-26" "2024-03-31" monToFri)
  = ["2024-02-26"; "2024-02-27"; "2024-02-28"; "2024-02-29"; "2024-03-01";
     "2024-03-04"; "2024-03-05"; "2024-03-06"].
Proof.
  vm_compute. reflexivity.
Qed.

(** C3: the code at a selection whose [startDate] (2023-03-10) is after its
    [date] (2023-03-06).  The walk starts at [startDate], the later anchor,
    and runs forward for five days: it emits 2023-03-10 to 2023-03-14, none
    of them but the first inside the interval from [date] to [startDate]. *)
Theorem computeDates_reversed_anchors :
  let sel := {| date := "2023-03-06"; startDate := "2023-03-10";
                startTime := Null; endTime := Null;
                daysOfTheWeek := everyDay |} in
  computeDates 90 sel
  = ["2023-03-10"; "2023-03-11"; "2023-03-12"; "2023-03-13"; "2023-03-14"]
  /\ Calendar.Moment (date sel) = Some 19422
  /\ Calendar.Moment (startDate sel) = Some 19426
  /\ map Calendar.Moment (computeDates 90 sel)
     = [Some 19426; Some 19427; Some 19428; Some 19429; Some 19430].
Proof.
  cbv zeta. repeat split; vm_compute; reflexivity.
Qed.

(** C4, as amended: when [startDate] equals [date], a day of the calendar,
    and [MAX_DATE_RANGE] is at least 1, [computeDates] returns exactly that
    one date if the [daysOfTheWeek] flag of its weekday is true, and no date
    if that flag is false. *)
Theorem computeDates_single_day (maxDays : nat) (sel : DateRangeSelection) (d : Z) :
  startDate sel = date sel ->
  Calendar.Moment (date sel) = Some d ->
  (1 <= maxDays)%nat ->
  computeDates maxDays sel
  = if weekday_flag (daysOfTheWeek sel) (Calendar.day d)
    then [Calendar.format d] else [].
Proof.
  intros Hsame Hd Hmax. unfold computeDates.
  rewrite Hsame, Hd. replace (d - d) with 0 by lia. simpl Z.abs.
  destruct (0 + 1 >? Z.of_nat maxDays) eqn:E; [lia|].
  simpl. rewrite app_nil_r. reflexivity.
Qed.

Lemma computeDates_single_day_witness :
  startDate (range "2023-03-06" "2023-03-06" monToFri)
  = date (range "2023-03-06" "2023-03-06" monToFri)
  /\ Calendar.Moment (date (range "2023-03-06" "2023-03-06" monToFri)) = Some 19422
  /\ (1 <= 90)%nat
  /\ computeDates 90 (range "2023-03-06" "2023-03-06" monToFri)
     = if weekday_flag monToFri (Calendar.day 19422)
       then [Calendar.format 19422] else [].
Proof.
  split; [reflexivity|]. split; [reflexivity|]. split; [lia|].
  apply (computeDates_single_day 90 (range "2023-03-06" "2023-03-06" monToFri) 19422);
    [reflexivity | reflexivity | lia].
Defined.

(** C4, as stated, fails: Monday 2023-03-06 selected alone with only the
    Sunday flag set gives no date although a weekday flag is true. *)
Lemma computeDates_single_day_unflagged :
  let sel := range "2023-03-06" "2023-03-06" sundayOnly in
  startDate sel = date sel
  /\ existsb (fun b => b) (daysOfTheWeek sel) = true
  /\ (1 <= 90)%nat
  /\ computeDates 90 sel = []
  /\ List.length (computeDates 90 sel) <> 1%nat.
Proof.
  repeat split; try reflexivity; try lia. vm_compute. discriminate.
Qed.

(** C5: the result of [computeDates] has at most [MAX_DATE_RANGE] entries,
    and each entry is the formatted form of a day whose [daysOfTheWeek] flag,
    read at that day's weekday (0 is Sunday, 6 is Saturday), is true. *)
Theorem computeDates_bounded_and_filtered (maxDays : nat) (sel : DateRangeSelection) :
  (List.length (computeDates maxDays sel) <= maxDays)%nat
  /\ exists days,
       computeDates maxDays sel = map Calendar.format days
       /\ Forall (fun d => 0 <= Calendar.day d <= 6
                           /\ nth (Z.to_nat (Calendar.day d)) (daysOfTheWeek sel) false
                              = true) days.
Proof.
  unfold computeDates.
  destruct (Calendar.Moment (date sel)) as [e|];
    [destruct (Calendar.Moment (startDate sel)) as [b|]|].
  - set (n := Z.to_nat _). rewrite walk_map_format. split.
    + rewrite length_map.
      etransitivity; [apply walk_days_length|]. apply iterations_bounded.
    + eexists; split; [reflexivity|].
      eapply Forall_impl; [|apply walk_days_flagged].
      simpl. intros d Hd. split; [|exact Hd].
      unfold Calendar.day. pose proof (Z.mod_pos_bound (d + 4) 7). lia.
  - split; [simpl; lia|]. exists []. split; [reflexivity|constructor].
  - split; [simpl; lia|]. exists []. split; [reflexivity|constructor].
Qed.

(* ------------------------------------------------------------------ *)
(** ** The resource location of the arrival archive *)

Lemma replace_dashes_app (a b : string) :
  replace_dashes (a ++ b) = replace_dashes a ++ replace_dashes b.
Proof.
  induction a as [|c a IH]; simpl; [reflexivity|]. now rewrite IH.
Qed.

Lemma replace_dashes_no_dash (s : string) :
  no_dash s -> replace_dashes s = s.
Proof.
  unfold no_dash. induction s as [|c s IH]; simpl; intro H; [reflexivity|].
  apply andb_true_iff in H. destruct H as [Hc Hs].
  rewrite (IH Hs). apply negb_true_iff in Hc. now rewrite Hc.
Qed.

Lemma append_associative (a b c : string) : (a ++ b) ++ c = a ++ (b ++ c).
Proof.
  induction a as [|x a IH]; simpl; [reflexivity|]. now rewrite IH.
Qed.

(** C9: for a date [y-m-d] whose three segments hold no dash,
    [generateArrivalsURL] returns
    [https://{bucket}.s3.amazonaws.com/arrivals/{version}/{agencyId}/{y}/{m}/{d}/arrivals_{version}_{agencyId}_{date}_{routeId}.json.gz?aj];
    for every date the path segment is the date with each dash replaced by a
    slash; and with version [v1] the location of
    [('sf-muni', '2023-03-06', '12')] ends as the specification says. *)
Theorem generateArrivalsURL_exact
  (S3Bucket ArrivalsVersion agencyId routeId y m d : string) :
  no_dash y -> no_dash m -> no_dash d ->
  generateArrivalsURL S3Bucket ArrivalsVersion agencyId (y ++ "-" ++ m ++ "-" ++ d) routeId
  = "https://" ++ S3Bucket ++ ".s3.amazonaws.com/arrivals/" ++ ArrivalsVersion
    ++ "/" ++ agencyId ++ "/" ++ (y ++ "/" ++ m ++ "/" ++ d)
    ++ "/arrivals_" ++ ArrivalsVersion ++ "_" ++ agencyId ++ "_"
    ++ (y ++ "-" ++ m ++ "-" ++ d) ++ "_" ++ routeId ++ ".json.gz?aj"
  /\ (forall dateStr,
        generateArrivalsURL S3Bucket ArrivalsVersion agencyId dateStr routeId
        = "https://" ++ S3Bucket ++ ".s3.amazonaws.com/arrivals/" ++ ArrivalsVersion
          ++ "/" ++ agencyId ++ "/" ++ replace_dashes dateStr
          ++ "/arrivals_" ++ ArrivalsVersion ++ "_" ++ agencyId ++ "_"
          ++ dateStr ++ "_" ++ routeId ++ ".json.gz?aj")
  /\ generateArrivalsURL S3Bucket "v1" "sf-muni" "2023-03-06" "12"
     = ("https://" ++ S3Bucket ++ ".s3.amazonaws.com")
       ++ "/arrivals/v1/sf-muni/2023/03/06/arrivals_v1_sf-muni_2023-03-06_12.json.gz?aj".
Proof.
  intros Hy Hm Hd. split; [|split].
  - unfold generateArrivalsURL.
    rewrite !replace_dashes_app.
    rewrite (replace_dashes_no_dash y Hy), (replace_dashes_no_dash m Hm),
            (replace_dashes_no_dash d Hd).
    reflexivity.
  - intro dateStr. reflexivity.
  - unfold generateArrivalsURL. simpl.
    rewrite append_associative. reflexivity.
Qed.

Lemma generateArrivalsURL_exact_witness :
  no_dash "2023" /\ no_dash "03" /\ no_dash "06"
  /\ generateArrivalsURL "opentransit-data" "v1" "sf-muni" "2023-03-06" "12"
     = "https://opentransit-data.s3.amazonaws.com/arrivals/v1/sf-muni/2023/03/06/arrivals_v1_sf-muni_2023-03-06_12.json.gz?aj".
Proof.
  split; [reflexivity|]. split; [reflexivity|]. split; [reflexivity|].
  apply (generateArrivalsURL_exact "opentransit-data" "v1" "sf-muni" "12"
           "2023" "03" "06"); reflexivity.
Defined.

(* ------------------------------------------------------------------ *)
(** ** The variable bindings *)

(** C6: in the variables of [fetchTripMetrics], [includeByDay] is
    [!params.secondDateRange && dates.length > 1]: it is true exactly when
    there is no second date range and the expanded first range has more than
    one date, and false whenever a second range exists or the expanded list
    has at most one date. *)
Theorem includeByDay_binding (maxDays : nat) (params : SelectionParams) :
  let dates := computeDates maxDays (firstDateRange params) in
  let includeByDay := field "includeByDay" (tripVariables maxDays params) in
  (includeByDay = JBool true
   <-> secondDateRange params = None /\ (1 < List.length dates)%nat)
  /\ (secondDateRange params <> None \/ (List.length dates <= 1)%nat
      -> includeByDay = JBool false).
Proof.
  cbv zeta.
  assert (E : field "includeByDay" (tripVariables maxDays params)
              = JBool (negb (is_some (secondDateRange params))
                       && (1 <? List.length
                                  (computeDates maxDays (firstDateRange params)))%nat))
    by reflexivity.
  rewrite E. clear E.
  destruct (secondDateRange params) as [second|]; simpl.
  - split.
    + split; [discriminate | intros [H _]; discriminate].
    + reflexivity.
  - destruct (Nat.ltb_spec 1 (List.length (computeDates maxDays (firstDateRange params))))
      as [Hlt|Hge].
    + split; [split; auto|]. intros [H|H]; [congruence | lia].
    + split; [|reflexivity].
      split; [discriminate | intros [_ H]; lia].
Qed.

(** C10: two selections that differ only in [agencyId] give
    [fetchRouteMetrics] the same variables, the same serialization and the
    same effect on every world, and likewise [fetchAgencyMetrics]: both bind
    the query variable [agencyId] to the id of the first configured agency,
    while [fetchTripMetrics] binds it to [params.agencyId]. *)
Theorem agencyId_ignored_by_route_and_agency_scopes
  (maxDays : nat) (Agencies_0_id : string) (reducer : State -> Action -> State)
  (p q : SelectionParams) :
  same_but_agencyId p q ->
  (routeVariables maxDays Agencies_0_id p = routeVariables maxDays Agencies_0_id q
   /\ JSON_stringify (routeVariables maxDays Agencies_0_id p)
      = JSON_stringify (routeVariables maxDays Agencies_0_id q)
   /\ forall w, fetchRouteMetrics maxDays Agencies_0_id reducer p w
                = fetchRouteMetrics maxDays Agencies_0_id reducer q w)
  /\ (agencyVariables maxDays Agencies_0_id p = agencyVariables maxDays Agencies_0_id q
      /\ JSON_stringify (agencyVariables maxDays Agencies_0_id p)
         = JSON_stringify (agencyVariables maxDays Agencies_0_id q)
      /\ forall w, fetchAgencyMetrics maxDays Agencies_0_id reducer p w
                   = fetchAgencyMetrics maxDays Agencies_0_id reducer q w)
  /\ field "agencyId" (routeVariables maxDays Agencies_0_id p) = JStr Agencies_0_id
  /\ field "agencyId" (agencyVariables maxDays Agencies_0_id p) = JStr Agencies_0_id
  /\ field "agencyId" (tripVariables maxDays p) = of_jsstr (agencyId p).
Proof.
  intros (Hroute & _ & _ & _ & Hfirst & Hsecond).
  assert (Hr : routeVariables maxDays Agencies_0_id p
               = routeVariables maxDays Agencies_0_id q).
  { unfold routeVariables, secondRangeVariables.
    rewrite Hroute, Hfirst, Hsecond. reflexivity. }
  assert (Ha : agencyVariables maxDays Agencies_0_id p
               = agencyVariables maxDays Agencies_0_id q).
  { unfold agencyVariables. rewrite Hfirst. reflexivity. }
  split; [|split; [|repeat split]].
  - split; [exact Hr|]. split; [now rewrite Hr|].
    intro w. unfold fetchRouteMetrics. now rewrite Hr.
  - split; [exact Ha|]. split; [now rewrite Ha|].
    intro w. unfold fetchAgencyMetrics. now rewrite Ha.
Qed.

Lemma agencyId_ignored_by_route_and_agency_scopes_witness :
  let p := selection "sf-muni" "12" (range "2023-03-06" "2023-03-10" monToFri) in
  let q := selection "trimet" "12" (range "2023-03-06" "2023-03-10" monToFri) in
  same_but_agencyId p q
  /\ JSON_stringify (routeVariables 90 "sf-muni" p)
     = JSON_stringify (routeVariables 90 "sf-muni" q)
  /\ JSON_stringify (agencyVariables 90 "sf-muni" p)
     = JSON_stringify (agencyVariables 90 "sf-muni" q)
  /\ field "agencyId" (routeVariables 90 "sf-muni" q) = JStr "sf-muni"
  /\ field "agencyId" (tripVariables 90 q) = JStr "trimet".
Proof.
  cbv zeta.
  assert (H : same_but_agencyId
                (selection "sf-muni" "12" (range "2023-03-06" "2023-03-10" monToFri))
                (selection "trimet" "12" (range "2023-03-06" "2023-03-10" monToFri)))
    by (repeat split; reflexivity).
  split; [exact H|].
  pose proof (agencyId_ignored_by_route_and_agency_scopes 90 "sf-muni" rootReducer
                _ _ H) as (Hr & Ha & _).
  split; [exact (proj1 (proj2 Hr))|].
  split; [exact (proj1 (proj2 Ha))|].
  split; reflexivity.
Defined.

(* ------------------------------------------------------------------ *)
(** ** The handlers of the responses *)

(** C7: when the payload of a response of the trip, route or agency scope
    has an [errors] list that is not empty, the chain dispatches the Errored
    action of that scope with the [message] of the first error, and nothing
    else: no Received action.  [message] is what reading [.message] on the
    first error yields. *)
Theorem graphql_errors_dispatch_first_message
  (TypeError_message : string) (reducer : State -> Action -> State)
  (scope : Scope) (variablesJson : string)
  (fields : list (string * jsval)) (first : jsval) (rest : list jsval)
  (message : jsval) :
  assoc "errors" fields = Some (JArr (first :: rest)) ->
  get_prop first "message" = Some message ->
  let outcome := Fulfilled (JObj fields) in
  let request := GraphQL scope variablesJson in
  settled TypeError_message request outcome = Some (errored scope message)
  /\ errored scope message
     = match scope with
       | TripMetrics => ERROR_TRIP_METRICS message
       | RouteMetrics => ERROR_ROUTE_METRICS message
       | AgencyMetrics => ERROR_AGENCY_METRICS message
       end
  /\ is_received (errored scope message) = false
  /\ forall w,
       trace (run (settle TypeError_message reducer request outcome) w)
       = (trace w ++ [Dispatched (errored scope message)])%list.
Proof.
  intros Herrors Hmessage outcome request.
  assert (Hfield : field "errors" fields = JArr (first :: rest))
    by (unfold field; now rewrite Herrors).
  assert (Hfirst : first_error_message (JObj fields) = Some message).
  { unfold first_error_message. simpl get_prop. rewrite Hfield.
    simpl. exact Hmessage. }
  assert (Htruthy : truthy (and_then (JObj fields) "errors") = true).
  { unfold and_then, prop. simpl. rewrite Hfield. reflexivity. }
  assert (Hsettled : settled TypeError_message request outcome
                     = Some (errored scope message)).
  { unfold settled, request, outcome, received.
    destruct scope;
      unfold tripMetricsReceived, routeMetricsReceived, agencyMetricsReceived;
      rewrite Htruthy, Hfirst; reflexivity. }
  split; [exact Hsettled|].
  split; [destruct scope; reflexivity|].
  split; [destruct scope; reflexivity|].
  intro w. unfold settle. rewrite Hsettled. reflexivity.
Qed.

Lemma graphql_errors_dispatch_first_message_witness :
  let payload := [("errors", JArr [JObj [("message", JStr "bad route")]])] in
  assoc "errors" payload = Some (JArr [JObj [("message", JStr "bad route")]])
  /\ get_prop (JObj [("message", JStr "bad route")]) "message"
     = Some (JStr "bad route")
  /\ settled "Cannot read properties of undefined"
       (GraphQL RouteMetrics "{}") (Fulfilled (JObj payload))
     = Some (ERROR_ROUTE_METRICS (JStr "bad route")).
Proof.
  cbv zeta.
  split; [reflexivity|]. split; [reflexivity|].
  exact (proj1 (graphql_errors_dispatch_first_message
                  "Cannot read properties of undefined" rootReducer
                  RouteMetrics "{}"
                  [("errors", JArr [JObj [("message", JStr "bad route")]])]
                  (JObj [("message", JStr "bad route")]) []
                  (JStr "bad route") eq_refl eq_refl)).
Defined.

(** C8: whatever the rejection of an arrival-archive request is, the chain
    dispatches [ERROR_ARRIVALS] with the fixed message [No data.], and
    nothing of the rejection value reaches the action. *)
Theorem arrivals_failure_is_no_data
  (TypeError_message : string) (reducer : State -> Action -> State)
  (s3Url : string) (err : jsval) (w : World) :
  settled TypeError_message (ArrivalsFile s3Url) (Rejected err)
  = Some (ERROR_ARRIVALS (JStr "No data."))
  /\ trace (run (settle TypeError_message reducer (ArrivalsFile s3Url) (Rejected err)) w)
     = (trace w ++ [Dispatched (ERROR_ARRIVALS (JStr "No data."))])%list
  /\ forall err',
       settle TypeError_message reducer (ArrivalsFile s3Url) (Rejected err') w
       = settle TypeError_message reducer (ArrivalsFile s3Url) (Rejected err) w.
Proof.
  repeat split.
Qed.

(* ------------------------------------------------------------------ *)
(** ** Deduplication of the fetches *)

Lemma jsstr_eqb_eq (a b : jsstr) : jsstr_eqb a b = true <-> a = b.
Proof.
  destruct a, b; simpl; split; intro H; try reflexivity; try discriminate.
  - apply String.eqb_eq in H. now subst.
  - injection H as ->. apply String.eqb_refl.
Qed.

Lemma strict_neq_false (a b : jsstr) : strict_neq a b = false <-> a = b.
Proof.
  unfold strict_neq. rewrite negb_false_iff. apply jsstr_eqb_eq.
Qed.

Lemma strict_neq_true (a b : jsstr) : strict_neq a b = true <-> a <> b.
Proof.
  unfold strict_neq. rewrite negb_true_iff, <- not_true_iff_false.
  now rewrite jsstr_eqb_eq.
Qed.

Lemma string_neq_true (a b : string) : string_neq a b = true <-> a <> b.
Proof.
  unfold string_neq. rewrite negb_true_iff. apply String.eqb_neq.
Qed.

Lemma network_calls_app (t u : list Event) :
  network_calls (t ++ u) = (network_calls t + network_calls u)%nat.
Proof.
  unfold network_calls. now rewrite filter_app, length_app.
Qed.

Section Dedup.

Variable maxDays : nat.
Variables S3Bucket ArrivalsVersion Agencies_0_id TypeError_message : string.
Variable reducer : State -> Action -> State.
Variable p : SelectionParams.

#[local] Abbreviation routeJson :=
  (JSON_stringify (routeVariables maxDays Agencies_0_id p)).
#[local] Abbreviation agencyJson :=
  (JSON_stringify (agencyVariables maxDays Agencies_0_id p)).
#[local] Abbreviation s3Url := (arrivalsURL S3Bucket ArrivalsVersion p).
#[local] Abbreviation route := (fetchRouteMetrics maxDays Agencies_0_id reducer p).
#[local] Abbreviation agency := (fetchAgencyMetrics maxDays Agencies_0_id reducer p).
#[local] Abbreviation archive := (fetchArrivals S3Bucket ArrivalsVersion reducer p).

Lemma fetchRouteMetrics_skip w :
  variablesJson (routeMetrics (store w)) = Str routeJson -> run route w = w.
Proof.
  intro H. apply strict_neq_false in H.
  unfold run, fetchRouteMetrics, bind, getState.
  rewrite H. reflexivity.
Qed.

Lemma fetchRouteMetrics_issue w :
  variablesJson (routeMetrics (store w)) <> Str routeJson ->
  run route w
  = {| store := reducer (store w) (REQUEST_ROUTE_METRICS routeJson);
       trace := (trace w ++ [Dispatched (REQUEST_ROUTE_METRICS routeJson)])
                ++ [Sent (GraphQL RouteMetrics routeJson)] |}.
Proof.
  intro H. apply strict_neq_true in H.
  unfold run, fetchRouteMetrics, bind, getState.
  rewrite H. reflexivity.
Qed.

Lemma fetchAgencyMetrics_skip w :
  variablesJson (agencyMetrics (store w)) = Str agencyJson -> run agency w = w.
Proof.
  intro H. apply strict_neq_false in H.
  unfold run, fetchAgencyMetrics, bind, getState.
  rewrite H. reflexivity.
Qed.

Lemma fetchAgencyMetrics_issue w :
  variablesJson (agencyMetrics (store w)) <> Str agencyJson ->
  run agency w
  = {| store := reducer (store w) (REQUEST_AGENCY_METRICS agencyJson);
       trace := (trace w ++ [Dispatched (REQUEST_AGENCY_METRICS agencyJson)])
                ++ [Sent (GraphQL AgencyMetrics agencyJson)] |}.
Proof.
  intro H. apply strict_neq_true in H.
  unfold run, fetchAgencyMetrics, bind, getState.
  rewrite H. reflexivity.
Qed.

Lemma fetchArrivals_skip w :
  url (arrivals (store w)) = Str s3Url -> run archive w = w.
Proof.
  intro H. apply strict_neq_false in H.
  unfold run, fetchArrivals, bind, getState.
  rewrite H. reflexivity.
Qed.

Lemma fetchArrivals_issue w :
  url (arrivals (store w)) <> Str s3Url ->
  run archive w
  = {| store := reducer (store w) REQUEST_ARRIVALS;
       trace := (trace w ++ [Dispatched REQUEST_ARRIVALS])
                ++ [Sent (ArrivalsFile s3Url)] |}.
Proof.
  intro H. apply strict_neq_true in H.
  unfold run, fetchArrivals, bind, getState.
  rewrite H. reflexivity.
Qed.

Lemma fetchTripMetrics_always w :
  run (fetchTripMetrics maxDays reducer p) w
  = {| store := reducer (store w) REQUEST_TRIP_METRICS;
       trace := (trace w ++ [Dispatched REQUEST_TRIP_METRICS])
                ++ [Sent (GraphQL TripMetrics
                            (JSON_stringify (tripVariables maxDays p)))] |}.
Proof.
  reflexivity.
Qed.

Lemma jsstr_eq_dec (a b : jsstr) : a = b \/ a <> b.
Proof.
  destruct (jsstr_eqb a b) eqn:E.
  - left. now apply jsstr_eqb_eq.
  - right. intro H. apply jsstr_eqb_eq in H. congruence.
Qed.

(** C1, as amended.  For the route, agency and archive scopes a fetch whose
    fingerprint (for the archive, the location) equals the one recorded in
    the store changes nothing: no dispatch, no network call.  Otherwise it
    dispatches the Requested action and issues one network call.  Where the
    store records the fingerprint carried by the Requested action (route and
    agency), a second fetch right after the first is empty, so two fetches in
    succession issue exactly one network call; for the archive, whose
    Requested action carries no location, the repeated fetch is empty once
    the Received action has recorded the location.  The trip scope reads no
    recorded fingerprint: every fetch dispatches [REQUEST_TRIP_METRICS] and
    issues a network call. *)
Theorem fetch_dedup (w : World) :
  (forall s j, variablesJson (routeMetrics (reducer s (REQUEST_ROUTE_METRICS j))) = Str j) ->
  (forall s j, variablesJson (agencyMetrics (reducer s (REQUEST_AGENCY_METRICS j))) = Str j) ->
  (forall s d u, url (arrivals (reducer s (RECEIVED_ARRIVALS d u))) = u) ->
  (* the guard *)
  ((variablesJson (routeMetrics (store w)) = Str routeJson -> run route w = w)
   /\ (variablesJson (agencyMetrics (store w)) = Str agencyJson -> run agency w = w)
   /\ (url (arrivals (store w)) = Str s3Url -> run archive w = w))
  (* a fetch that is not skipped *)
  /\ ((variablesJson (routeMetrics (store w)) <> Str routeJson ->
       trace (run route w)
       = (trace w ++ [Dispatched (REQUEST_ROUTE_METRICS routeJson);
                      Sent (GraphQL RouteMetrics routeJson)])%list)
      /\ (variablesJson (agencyMetrics (store w)) <> Str agencyJson ->
          trace (run agency w)
          = (trace w ++ [Dispatched (REQUEST_AGENCY_METRICS agencyJson);
                         Sent (GraphQL AgencyMetrics agencyJson)])%list)
      /\ (url (arrivals (store w)) <> Str s3Url ->
          trace (run archive w)
          = (trace w ++ [Dispatched REQUEST_ARRIVALS;
                         Sent (ArrivalsFile s3Url)])%list))
  (* twice in succession *)
  /\ (run route (run route w) = run route w
      /\ (variablesJson (routeMetrics (store w)) <> Str routeJson ->
          network_calls (trace (run route (run route w)))
          = S (network_calls (trace w))))
  /\ (run agency (run agency w) = run agency w
      /\ (variablesJson (agencyMetrics (store w)) <> Str agencyJson ->
          network_calls (trace (run agency (run agency w)))
          = S (network_calls (trace w))))
  /\ (forall responseData,
        let received :=
          run (settle TypeError_message reducer (ArrivalsFile s3Url)
                      (Fulfilled responseData)) (run archive w) in
        run archive received = received)
  (* the trip scope *)
  /\ trace (run (fetchTripMetrics maxDays reducer p) w)
     = (trace w ++ [Dispatched REQUEST_TRIP_METRICS;
                    Sent (GraphQL TripMetrics
                            (JSON_stringify (tripVariables maxDays p)))])%list.
Proof.
  intros Hroute Hagency Harrivals.
  split; [|split; [|split; [|split; [|split]]]].
  - split; [apply fetchRouteMetrics_skip|].
    split; [apply fetchAgencyMetrics_skip | apply fetchArrivals_skip].
  - split; [|split]; intro H.
    + rewrite (fetchRouteMetrics_issue w H). simpl. now rewrite <- app_assoc.
    + rewrite (fetchAgencyMetrics_issue w H). simpl. now rewrite <- app_assoc.
    + rewrite (fetchArrivals_issue w H). simpl. now rewrite <- app_assoc.
  - assert (Hidem : run route (run route w) = run route w).
    { destruct (jsstr_eq_dec (variablesJson (routeMetrics (store w))) (Str routeJson))
        as [E|E].
      - now rewrite !(fetchRouteMetrics_skip w E).
      - apply fetchRouteMetrics_skip.
        rewrite (fetchRouteMetrics_issue w E). simpl. apply Hroute. }
    split; [exact Hidem|]. intro E. rewrite Hidem.
    rewrite (fetchRouteMetrics_issue w E). simpl.
    rewrite !network_calls_app. simpl. unfold network_calls at 2 3. simpl. lia.
  - assert (Hidem : run agency (run agency w) = run agency w).
    { destruct (jsstr_eq_dec (variablesJson (agencyMetrics (store w))) (Str agencyJson))
        as [E|E].
      - now rewrite !(fetchAgencyMetrics_skip w E).
      - apply fetchAgencyMetrics_skip.
        rewrite (fetchAgencyMetrics_issue w E). simpl. apply Hagency. }
    split; [exact Hidem|]. intro E. rewrite Hidem.
    rewrite (fetchAgencyMetrics_issue w E). simpl.
    rewrite !network_calls_app. simpl. unfold network_calls at 2 3. simpl. lia.
  - intro responseData. cbv zeta. apply fetchArrivals_skip.
    unfold run, settle, settled, dispatch. simpl. apply Harrivals.
  - rewrite fetchTripMetrics_always. simpl. now rewrite <- app_assoc.
Qed.

End Dedup.

(* ------------------------------------------------------------------ *)
(** ** The reaction to a new selection *)

Lemma extends_ret : extends (ret tt).
Proof.
  intro w. exists []. unfold run, ret. simpl. now rewrite app_nil_r.
Qed.

Lemma extends_dispatch reducer a : extends (dispatch reducer a).
Proof.
  intro w. exists [Dispatched a]. reflexivity.
Qed.

Lemma extends_axios_get r : extends (axios_get r).
Proof.
  intro w. exists [Sent r]. reflexivity.
Qed.

Lemma extends_seq (m k : Thunk unit) :
  extends m -> extends k -> extends (m ;; k).
Proof.
  intros Hm Hk w. unfold run, bind.
  destruct (m w) as [u w1] eqn:E1.
  destruct (Hm w) as [r1 H1]. unfold run in H1. rewrite E1 in H1. simpl in H1.
  destruct (Hk w1) as [r2 H2]. unfold run in H2.
  exists (r1 ++ r2)%list. rewrite H2, H1. now rewrite app_assoc.
Qed.

Lemma extends_getState (k : State -> Thunk unit) :
  (forall s, extends (k s)) -> extends (s <- getState ;; k s).
Proof.
  intros Hk w. unfold run, bind, getState. apply (Hk (store w) w).
Qed.

Lemma extends_when (c : bool) (m : Thunk unit) :
  extends m -> extends (when c m).
Proof.
  intro Hm. destruct c; [exact Hm | exact extends_ret].
Qed.

Create HintDb thunks.

#[local] Hint Resolve extends_ret extends_dispatch extends_axios_get
  extends_seq extends_getState extends_when : thunks.

Lemma extends_fetchTripMetrics maxDays reducer params :
  extends (fetchTripMetrics maxDays reducer params).
Proof.
  unfold fetchTripMetrics. auto with thunks.
Qed.

Lemma extends_fetchRouteMetrics maxDays id reducer params :
  extends (fetchRouteMetrics maxDays id reducer params).
Proof.
  unfold fetchRouteMetrics. apply extends_getState. intro s.
  auto with thunks.
Qed.

Lemma extends_fetchAgencyMetrics maxDays id reducer params :
  extends (fetchAgencyMetrics maxDays id reducer params).
Proof.
  unfold fetchAgencyMetrics. apply extends_getState. intro s.
  auto with thunks.
Qed.

(** In a list that starts with [a; b], an element that satisfies a test
    which [a] and [b] fail comes after [b]. *)
Lemma after_second {A : Type} (test : A -> bool) (a b : A)
  (rest pre post : list A) (e : A) :
  test a = false -> test b = false ->
  a :: b :: rest = (pre ++ e :: post)%list -> test e = true ->
  exists mid, pre = (a :: b :: mid)%list.
Proof.
  intros Ha Hb Heq He.
  destruct pre as [|x pre]; simpl in Heq.
  - injection Heq as -> _. congruence.
  - injection Heq as <- Heq. destruct pre as [|y pre]; simpl in Heq.
    + injection Heq as -> _. congruence.
    + injection Heq as <- _. now exists pre.
Qed.

(** C2: when the selection stored after [RECEIVED_GRAPH_PARAMS] differs from
    the one stored before in the date of the first range, in [routeId] or in
    [agencyId], [handleGraphParams] dispatches the reset of the arrivals
    ([RECEIVED_ARRIVALS] with no location and no data) right after
    [RECEIVED_GRAPH_PARAMS], and every transition of the agency, route or
    trip metrics that the call adds to the trace comes after that reset. *)
Theorem handleGraphParams_resets_arrivals_first
  (maxDays : nat) (Agencies_0_id : string) (reducer : State -> Action -> State)
  (params : SelectionParams) (w : World) :
  let oldParams := graphParams (store w) in
  let newParams :=
    graphParams (reducer (store w) (RECEIVED_GRAPH_PARAMS params)) in
  let replaced := Dispatched (RECEIVED_GRAPH_PARAMS params) in
  let reset := Dispatched (RECEIVED_ARRIVALS JNull Null) in
  date (firstDateRange oldParams) <> date (firstDateRange newParams)
  \/ routeId oldParams <> routeId newParams
  \/ agencyId oldParams <> agencyId newParams ->
  exists rest,
    trace (run (handleGraphParams maxDays Agencies_0_id reducer params) w)
    = (trace w ++ replaced :: reset :: rest)%list
    /\ forall pre e post,
         (replaced :: reset :: rest = pre ++ e :: post)%list ->
         is_metrics_transition e = true ->
         exists mid, pre = (replaced :: reset :: mid)%list.
Proof.
  intros oldParams newParams replaced reset Hchanged.
  assert (Hcond :
    string_neq (date (firstDateRange oldParams)) (date (firstDateRange newParams))
    || strict_neq (routeId oldParams) (routeId newParams)
    || strict_neq (agencyId oldParams) (agencyId newParams) = true).
  { rewrite !orb_true_iff, string_neq_true, !strict_neq_true. tauto. }
  set (w1 := run (dispatch reducer (RECEIVED_GRAPH_PARAMS params)) w).
  set (w2 := run (resetArrivals reducer) w1).
  set (fetches :=
    (when (truthy (JStr (date (firstDateRange newParams))))
       (fetchAgencyMetrics maxDays Agencies_0_id reducer newParams) ;;
     when (truthy_str (agencyId newParams) && truthy_str (routeId newParams))
       (fetchRouteMetrics maxDays Agencies_0_id reducer newParams) ;;
     if truthy_str (agencyId newParams) && truthy_str (routeId newParams)
        && truthy_str (directionId newParams)
        && truthy_str (startStopId newParams)
        && truthy_str (endStopId newParams)
     then fetchTripMetrics maxDays reducer newParams
     else resetTripMetrics reducer)).
  assert (Hrun : run (handleGraphParams maxDays Agencies_0_id reducer params) w
                 = run fetches w2).
  { unfold handleGraphParams, run at 1, bind at 1 2 3 4, getState.
    simpl. fold oldParams newParams. rewrite Hcond. reflexivity. }
  assert (Hext : extends fetches).
  { unfold fetches. apply extends_seq; [|apply extends_seq].
    - apply extends_when, extends_fetchAgencyMetrics.
    - apply extends_when, extends_fetchRouteMetrics.
    - match goal with |- extends (if ?c then _ else _) => destruct c end;
        [apply extends_fetchTripMetrics | apply extends_dispatch]. }
  destruct (Hext w2) as [rest Hrest].
  exists rest. split.
  - rewrite Hrun, Hrest. unfold w2, w1, run. simpl.
    now rewrite <- !app_assoc.
  - intros pre e post. now apply after_second.
Qed.

Lemma handleGraphParams_resets_arrivals_first_witness :
  let old := selection "X" "1" (range "A" "A" everyDay) in
  let new := selection "X" "1" (range "B" "B" everyDay) in
  (date (firstDateRange (graphParams (store (initialWorld old))))
   <> date (firstDateRange
              (graphParams (rootReducer (store (initialWorld old))
                                        (RECEIVED_GRAPH_PARAMS new))))
   \/ routeId (graphParams (store (initialWorld old)))
      <> routeId (graphParams (rootReducer (store (initialWorld old))
                                           (RECEIVED_GRAPH_PARAMS new)))
   \/ agencyId (graphParams (store (initialWorld old)))
      <> agencyId (graphParams (rootReducer (store (initialWorld old))
                                            (RECEIVED_GRAPH_PARAMS new))))
  /\ exists rest,
       trace (run (handleGraphParams 90 "X" rootReducer new) (initialWorld old))
       = Dispatched (RECEIVED_GRAPH_PARAMS new)
         :: Dispatched (RECEIVED_ARRIVALS JNull Null) :: rest.
Proof.
  cbv zeta.
  assert (H : "A" <> "B") by discriminate.
  split; [left; exact H|].
  destruct (handleGraphParams_resets_arrivals_first 90 "X" rootReducer
              (selection "X" "1" (range "B" "B" everyDay))
              (initialWorld (selection "X" "1" (range "A" "A" everyDay)))
              (or_introl H)) as [rest [Htrace _]].
  exists rest. exact Htrace.
Defined.

(* ------------------------------------------------------------------ *)
(** ** The deduplication at a concrete store *)

Lemma fetch_dedup_witness :
  let p := selection "sf-muni" "12" (range "2023-03-06" "2023-03-10" monToFri) in
  let route := fetchRouteMetrics 90 "sf-muni" rootReducer p in
  (forall s j, variablesJson (routeMetrics (rootReducer s (REQUEST_ROUTE_METRICS j))) = Str j)
  /\ (forall s j, variablesJson (agencyMetrics (rootReducer s (REQUEST_AGENCY_METRICS j))) = Str j)
  /\ (forall s d u, url (arrivals (rootReducer s (RECEIVED_ARRIVALS d u))) = u)
  /\ run route (run route (initialWorld p)) = run route (initialWorld p)
  /\ network_calls (trace (run route (run route (initialWorld p)))) = 1%nat.
Proof.
  cbv zeta.
  assert (Hroute : forall s j,
    variablesJson (routeMetrics (rootReducer s (REQUEST_ROUTE_METRICS j))) = Str j)
    by reflexivity.
  assert (Hagency : forall s j,
    variablesJson (agencyMetrics (rootReducer s (REQUEST_AGENCY_METRICS j))) = Str j)
    by reflexivity.
  assert (Harrivals : forall s d u,
    url (arrivals (rootReducer s (RECEIVED_ARRIVALS d u))) = u)
    by reflexivity.
  split; [exact Hroute|]. split; [exact Hagency|]. split; [exact Harrivals|].
  destruct (fetch_dedup 90 "opentransit-data" "v1" "sf-muni"
              "Cannot read properties of undefined" rootReducer
              (selection "sf-muni" "12" (range "2023-03-06" "2023-03-10" monToFri))
              (initialWorld
                 (selection "sf-muni" "12" (range "2023-03-06" "2023-03-10" monToFri)))
              Hroute Hagency Harrivals)
    as (_ & _ & (Hidem & Hcalls) & _).
  split; [exact Hidem|].
  apply Hcalls. discriminate.
Defined.

(** C1, as stated, fails for the trip scope: two calls of [fetchTripMetrics]
    in succession with the same selection, hence the same variables, issue
    two network calls. *)
Lemma fetchTripMetrics_not_deduplicated :
  let p := selection "sf-muni" "12" (range "2023-03-06" "2023-03-10" monToFri) in
  let trip := fetchTripMetrics 90 rootReducer p in
  network_calls (trace (run trip (run trip (initialWorld p)))) = 2%nat
  /\ network_calls (trace (run trip (run trip (initialWorld p)))) <> 1%nat
  /\ trace (run trip (run trip (initialWorld p)))
     = [Dispatched REQUEST_TRIP_METRICS;
        Sent (GraphQL TripMetrics (JSON_stringify (tripVariables 90 p)));
        Dispatched REQUEST_TRIP_METRICS;
        Sent (GraphQL TripMetrics (JSON_stringify (tripVariables 90 p)))].
Proof.
  cbv zeta. split; [|split].
  - vm_compute. reflexivity.
  - vm_compute. discriminate.
  - vm_compute. reflexivity.
Qed.

(** With the reducer modelled above, [REQUEST_ARRIVALS] records no location
    (the action carries none): a second [fetchArrivals] issued before the
    first response has arrived sends the request again. *)
Example fetchArrivals_twice_before_response :
  let p := selection "sf-muni" "12" (range "2023-03-06" "2023-03-06" everyDay) in
  let archive := fetchArrivals "opentransit-data" "v1" rootReducer p in
  network_calls (trace (run archive (run archive (initialWorld p)))) = 2%nat.
Proof.
  vm_compute. reflexivity.
Qed.

(* ------------------------------------------------------------------ *)
(** ** More on [computeDates] *)







Lemma walk_days_unflagged flags n b :
  (forall i, nth i flags false = false) -> walk_days flags n b = [].
Proof.
  intro H. revert b; induction n as [|n IH]; intro b; simpl; [reflexivity|].
  unfold weekday_flag. rewrite H, IH. reflexivity.
Qed.

Lemma computeDates_unflagged (maxDays : nat) (sel : DateRangeSelection) :
  (forall i, nth i (daysOfTheWeek sel) false = false) ->
  computeDates maxDays sel = [].
Proof.
  intro H. unfold computeDates.
  destruct (Calendar.Moment (date sel)); [|reflexivity].
  destruct (Calendar.Moment (startDate sel)); [|reflexivity].
  cbv zeta. rewrite walk_map_format, walk_days_unflagged by exact H.
  reflexivity.
Qed.

(** When no weekday flag is set, [computeDates] returns no date, whatever
    the anchors and the guard rail are; in the variables of the trip query
    [dates] is then the empty list and [includeByDay] is false. *)
Theorem computeDates_no_flag_no_date (maxDays : nat) (params : SelectionParams) :
  (forall i, nth i (daysOfTheWeek (firstDateRange params)) false = false) ->
  computeDates maxDays (firstDateRange params) = []
  /\ field "dates" (tripVariables maxDays params) = JArr []
  /\ field "includeByDay" (tripVariables maxDays params) = JBool false.
Proof.
  intro H.
  pose proof (computeDates_unflagged maxDays (firstDateRange params) H) as E.
  split; [exact E|].
  unfold tripVariables, field. simpl assoc. rewrite E.
  split; [reflexivity|]. simpl. now rewrite andb_false_r.
Qed.

Lemma nth_noDay i : nth i noDay false = false.
Proof.
  do 8 (destruct i as [|i]; [reflexivity|]). reflexivity.
Qed.

Lemma computeDates_no_flag_no_date_witness :
  let params := selection "sf-muni" "12" (range "2023-03-06" "2023-03-10" noDay) in
  (forall i, nth i (daysOfTheWeek (firstDateRange params)) false = false)
  /\ computeDates 90 (firstDateRange params) = []
  /\ field "dates" (tripVariables 90 params) = JArr []
  /\ field "includeByDay" (tripVariables 90 params) = JBool false.
Proof.
  cbv zeta. split; [exact nth_noDay|].
  apply (computeDates_no_flag_no_date 90
           (selection "sf-muni" "12" (range "2023-03-06" "2023-03-10" noDay))).
  exact nth_noDay.
Defined.

Lemma walk_days_ascending flags n b :
  StronglySorted Z.lt (walk_days flags n b).
Proof.
  revert b; induction n as [|n IH]; intro b; simpl; [constructor|].
  destruct (weekday_flag flags (Calendar.day b)); simpl; [|apply IH].
  constructor; [apply IH|].
  eapply Forall_impl; [|apply (walk_days_within flags n (b + 1))].
  simpl. intros d Hd. lia.
Qed.

(** The dates of [computeDates] are in strictly ascending order of the
    calendar: no day occurs twice and none comes before an earlier one. *)
Theorem computeDates_ascending (maxDays : nat) (sel : DateRangeSelection) :
  exists days,
    computeDates maxDays sel = map Calendar.format days
    /\ StronglySorted Z.lt days.
Proof.
  unfold computeDates.
  destruct (Calendar.Moment (date sel));
    [|exists []; split; [reflexivity|constructor]].
  destruct (Calendar.Moment (startDate sel));
    [|exists []; split; [reflexivity|constructor]].
  cbv zeta. rewrite walk_map_format.
  eexists; split; [reflexivity|]. apply walk_days_ascending.
Qed.





(* ------------------------------------------------------------------ *)
(** ** More on the variable bindings *)

(** In the variables of [fetchTripMetrics] and of [fetchRouteMetrics] the
    members [dates2], [startTime2] and [endTime2] are present exactly when
    [dualDateRange] is true, and then [dates2] is the expansion of the second
    range; in the trip variables [includeTimeRanges2] is true only in that
    case, and [includeByDay] only in the other. *)
Theorem second_range_bound_iff_dualDateRange
  (maxDays : nat) (Agencies_0_id : string) (params : SelectionParams)
  (trip : bool) :
  let vars := if trip then tripVariables maxDays params
              else routeVariables maxDays Agencies_0_id params in
  (field "dualDateRange" vars = JBool true
   <-> assoc "dates2" vars <> None)
  /\ (forall second, secondDateRange params = Some second ->
        field "dualDateRange" vars = JBool true
        /\ assoc "dates2" vars = Some (strings (computeDates maxDays second))
        /\ assoc "startTime2" vars = Some (of_jsstr (startTime second))
        /\ assoc "endTime2" vars = Some (of_jsstr (endTime second)))
  /\ (secondDateRange params = None ->
        field "dualDateRange" vars = JBool false
        /\ assoc "dates2" vars = None
        /\ assoc "startTime2" vars = None
        /\ assoc "endTime2" vars = None)
  /\ (field "includeTimeRanges2" (tripVariables maxDays params) = JBool true ->
        field "dualDateRange" (tripVariables maxDays params) = JBool true)
  /\ (field "includeByDay" (tripVariables maxDays params) = JBool true ->
        field "dualDateRange" (tripVariables maxDays params) = JBool false).
Proof.
  intro vars.
  assert (Htrip :
    (field "includeTimeRanges2" (tripVariables maxDays params) = JBool true ->
     field "dualDateRange" (tripVariables maxDays params) = JBool true)
    /\ (field "includeByDay" (tripVariables maxDays params) = JBool true ->
        field "dualDateRange" (tripVariables maxDays params) = JBool false)).
  { unfold tripVariables, secondRangeVariables.
    destruct (secondDateRange params) as [second|]; simpl; split; intro H;
      try reflexivity; try discriminate. }
  destruct Htrip as [Ht1 Ht2].
  refine (conj _ (conj _ (conj _ (conj Ht1 Ht2)))); clear Ht1 Ht2;
    unfold vars; destruct trip;
    unfold tripVariables, routeVariables, secondRangeVariables;
    destruct (secondDateRange params) as [second|]; unfold field; simpl.
  all: try (split; intro H; congruence).
  all: try (intros s' Hs'; try congruence; injection Hs' as <-; now repeat split).
  all: intro H; try congruence; now repeat split.
Qed.

(* ------------------------------------------------------------------ *)
(** ** More on the handlers of the responses *)

Lemma settled_slice (TypeError_message : string) (r : Request) (o : Outcome)
  (a : Action) :
  settled TypeError_message r o = Some a ->
  slice_of_action a = slice_of_request r /\ is_metrics_transition (Dispatched a)
                                            = match r with
                                              | GraphQL _ _ => true
                                              | ArrivalsFile _ => false
                                              end.
Proof.
  unfold settled, received, failed, tripMetricsReceived, routeMetricsReceived,
    agencyMetricsReceived.
  destruct r as [scope variablesJson | s3Url]; destruct o as [rd | err].
  - destruct scope;
      destruct (truthy (and_then rd "errors"));
      destruct (first_error_message rd); simpl; intro H;
      try (injection H as <-; now split);
      destruct (errStr (TypeError TypeError_message)); simpl in H;
      try discriminate; injection H as <-; now split.
  - destruct scope; destruct (errStr err); simpl; intro H;
      try discriminate; injection H as <-; now split.
  - intro H. injection H as <-. now split.
  - intro H. injection H as <-. now split.
Qed.

(** When a request ends, its handlers dispatch at most one action, that
    action belongs to the slice of the request (a response to a route request
    never touches the trip or agency result, and so on), and no handler
    issues a network call: a failed fetch is not retried. *)
Theorem settle_one_action_same_slice_no_retry
  (TypeError_message : string) (reducer : State -> Action -> State)
  (r : Request) (o : Outcome) (w : World) :
  exists added,
    trace (run (settle TypeError_message reducer r o) w)
    = (trace w ++ added)%list
    /\ (List.length added <= 1)%nat
    /\ Forall (fun e => exists a, e = Dispatched a
                                   /\ slice_of_action a = slice_of_request r)
              added
    /\ network_calls (trace (run (settle TypeError_message reducer r o) w))
       = network_calls (trace w).
Proof.
  unfold settle.
  destruct (settled TypeError_message r o) as [a|] eqn:E.
  - exists [Dispatched a]. split; [reflexivity|]. split; [simpl; lia|].
    split.
    + constructor; [|constructor]. exists a. split; [reflexivity|].
      exact (proj1 (settled_slice _ _ _ _ E)).
    + unfold run, dispatch. simpl. rewrite network_calls_app.
      unfold network_calls at 2. simpl. lia.
  - exists []. split; [now rewrite app_nil_r|]. split; [simpl; lia|].
    split; [constructor | reflexivity].
Qed.



(** An [errors] list that is empty is still truthy.  In a response it makes
    the [then] handler raise while it reads the first error, and the [catch]
    handler of the same chain reports the message of that TypeError; in the
    body of a rejection it makes the [catch] handler itself raise, and then
    nothing is dispatched: the result stays as the Requested action left
    it. *)
Theorem graphql_empty_errors_list
  (TypeError_message : string) (reducer : State -> Action -> State)
  (scope : Scope) (variablesJson : string)
  (fields errFields responseFields : list (string * jsval)) (w : World) :
  assoc "errors" fields = Some (JArr []) ->
  field "response" errFields = JObj responseFields ->
  field "data" responseFields = JObj fields ->
  settled TypeError_message (GraphQL scope variablesJson) (Fulfilled (JObj fields))
  = Some (errored scope (JStr TypeError_message))
  /\ settled TypeError_message (GraphQL scope variablesJson)
             (Rejected (JObj errFields)) = None
  /\ run (settle TypeError_message reducer (GraphQL scope variablesJson)
                 (Rejected (JObj errFields))) w = w.
Proof.
  intros Herrors Hresponse Hdata.
  assert (Hfield : field "errors" fields = JArr [])
    by (unfold field; now rewrite Herrors).
  assert (Htruthy : truthy (and_then (JObj fields) "errors") = true).
  { unfold and_then, prop. simpl. now rewrite Hfield. }
  assert (Hfirst : first_error_message (JObj fields) = None).
  { unfold first_error_message. simpl get_prop. now rewrite Hfield. }
  assert (Hrejected : settled TypeError_message (GraphQL scope variablesJson)
                              (Rejected (JObj errFields)) = None).
  { assert (Hd : and_then (JObj responseFields) "data" = JObj fields)
      by (unfold and_then, prop; simpl; exact Hdata).
    unfold settled, failed, errStr. simpl get_prop. rewrite Hresponse.
    cbv zeta. rewrite Hd, Htruthy, Hfirst. reflexivity. }
  split; [|split].
  - unfold settled, received, tripMetricsReceived, routeMetricsReceived,
      agencyMetricsReceived.
    destruct scope; rewrite Htruthy, Hfirst; reflexivity.
  - exact Hrejected.
  - unfold settle. rewrite Hrejected. reflexivity.
Qed.

Lemma graphql_empty_errors_list_witness :
  let fields := [("errors", JArr [])] in
  let responseFields := [("data", JObj fields)] in
  let errFields := [("message", JStr "Request failed with status code 500");
                    ("response", JObj responseFields)] in
  assoc "errors" fields = Some (JArr [])
  /\ field "response" errFields = JObj responseFields
  /\ field "data" responseFields = JObj fields
  /\ settled "Cannot read properties of undefined"
       (GraphQL AgencyMetrics "{}") (Fulfilled (JObj fields))
     = Some (ERROR_AGENCY_METRICS (JStr "Cannot read properties of undefined"))
  /\ settled "Cannot read properties of undefined"
       (GraphQL AgencyMetrics "{}") (Rejected (JObj errFields)) = None.
Proof.
  cbv zeta. split; [reflexivity|]. split; [reflexivity|]. split; [reflexivity|].
  destruct (graphql_empty_errors_list "Cannot read properties of undefined"
              rootReducer AgencyMetrics "{}"
              [("errors", JArr [])]
              [("message", JStr "Request failed with status code 500");
               ("response", JObj [("data", JObj [("errors", JArr [])])])]
              [("data", JObj [("errors", JArr [])])]
              (initialWorld (selection "sf-muni" "12"
                               (range "2023-03-06" "2023-03-10" monToFri)))
              eq_refl eq_refl eq_refl) as (H1 & H2 & _).
  split; [exact H1 | exact H2].
Defined.

(** The message of a rejected GraphQL request: the first error of the body
    of the error response when that body has an error list, whatever the
    message of the rejection itself is; otherwise the message of the
    rejection. *)
Theorem graphql_rejection_message
  (TypeError_message : string) (scope : Scope) (variablesJson : string)
  (errFields : list (string * jsval)) :
  (forall responseFields fields first rest message,
     field "response" errFields = JObj responseFields ->
     field "data" responseFields = JObj fields ->
     assoc "errors" fields = Some (JArr (first :: rest)) ->
     get_prop first "message" = Some message ->
     settled TypeError_message (GraphQL scope variablesJson)
             (Rejected (JObj errFields))
     = Some (errored scope message))
  /\ (truthy (and_then (and_then (field "response" errFields) "data") "errors")
      = false ->
      settled TypeError_message (GraphQL scope variablesJson)
              (Rejected (JObj errFields))
      = Some (errored scope (field "message" errFields))).
Proof.
  split.
  - intros responseFields fields first rest message Hresponse Hdata Herrors Hmsg.
    assert (Hfield : field "errors" fields = JArr (first :: rest))
      by (unfold field; now rewrite Herrors).
    assert (Hd : and_then (JObj responseFields) "data" = JObj fields)
      by (unfold and_then, prop; simpl; exact Hdata).
    assert (Htruthy : truthy (and_then (JObj fields) "errors") = true)
      by (unfold and_then, prop; simpl; now rewrite Hfield).
    assert (Hfirst : first_error_message (JObj fields) = Some message).
    { unfold first_error_message. simpl get_prop. rewrite Hfield.
      simpl. exact Hmsg. }
    unfold settled, failed, errStr. simpl get_prop. rewrite Hresponse.
    cbv zeta. rewrite Hd, Htruthy, Hfirst. reflexivity.
  - intro H. unfold settled, failed, errStr. simpl get_prop.
    cbv beta iota zeta. rewrite H. reflexivity.
Qed.

Lemma graphql_rejection_message_witness :
  let body := [("errors", JArr [JObj [("message", JStr "bad route")]])] in
  let answered := [("message", JStr "Request failed with status code 400");
                   ("response", JObj [("data", JObj body)])] in
  let unreachable := [("message", JStr "Network Error")] in
  settled "Cannot read properties of undefined" (GraphQL RouteMetrics "{}")
          (Rejected (JObj answered))
  = Some (ERROR_ROUTE_METRICS (JStr "bad route"))
  /\ truthy (and_then (and_then (field "response" unreachable) "data") "errors")
     = false
  /\ settled "Cannot read properties of undefined" (GraphQL RouteMetrics "{}")
             (Rejected (JObj unreachable))
     = Some (ERROR_ROUTE_METRICS (JStr "Network Error")).
Proof.
  cbv zeta. split; [|split; [reflexivity|]].
  - exact (proj1 (graphql_rejection_message
                    "Cannot read properties of undefined" RouteMetrics "{}"
                    [("message", JStr "Request failed with status code 400");
                     ("response",
                      JObj [("data",
                             JObj [("errors",
                                    JArr [JObj [("message", JStr "bad route")]])])])])
                 [("data", JObj [("errors", JArr [JObj [("message", JStr "bad route")]])])]
                 [("errors", JArr [JObj [("message", JStr "bad route")]])]
                 (JObj [("message", JStr "bad route")]) [] (JStr "bad route")
                 eq_refl eq_refl eq_refl eq_refl).
  - exact (proj2 (graphql_rejection_message
                    "Cannot read properties of undefined" RouteMetrics "{}"
                    [("message", JStr "Network Error")]) eq_refl).
Defined.

(* ------------------------------------------------------------------ *)
(** ** More on the reaction to a new selection *)

Lemma run_seq (m k : Thunk unit) (w : World) :
  run (m ;; k) w = run k (run m w).
Proof.
  unfold run, bind. now destruct (m w).
Qed.

Lemma run_when_false (m : Thunk unit) (w : World) : run (when false m) w = w.
Proof.
  reflexivity.
Qed.

(** What one fetch of the agency metrics adds to the trace. *)
Lemma fetchAgencyMetrics_events maxDays id reducer p w :
  let json := JSON_stringify (agencyVariables maxDays id p) in
  exists added,
    trace (run (fetchAgencyMetrics maxDays id reducer p) w)
    = (trace w ++ added)%list
    /\ (added = []
        \/ added = [Dispatched (REQUEST_AGENCY_METRICS json);
                    Sent (GraphQL AgencyMetrics json)]).
Proof.
  intro json.
  destruct (jsstr_eq_dec (variablesJson (agencyMetrics (store w))) (Str json))
    as [E|E].
  - exists []. rewrite (fetchAgencyMetrics_skip maxDays id reducer p w E).
    split; [now rewrite app_nil_r | now left].
  - eexists. rewrite (fetchAgencyMetrics_issue maxDays id reducer p w E).
    simpl. rewrite <- app_assoc. split; [reflexivity | now right].
Qed.

(** What one fetch of the route metrics adds to the trace. *)
Lemma fetchRouteMetrics_events maxDays id reducer p w :
  let json := JSON_stringify (routeVariables maxDays id p) in
  exists added,
    trace (run (fetchRouteMetrics maxDays id reducer p) w)
    = (trace w ++ added)%list
    /\ (added = []
        \/ added = [Dispatched (REQUEST_ROUTE_METRICS json);
                    Sent (GraphQL RouteMetrics json)]).
Proof.
  intro json.
  destruct (jsstr_eq_dec (variablesJson (routeMetrics (store w))) (Str json))
    as [E|E].
  - exists []. rewrite (fetchRouteMetrics_skip maxDays id reducer p w E).
    split; [now rewrite app_nil_r | now left].
  - eexists. rewrite (fetchRouteMetrics_issue maxDays id reducer p w E).
    simpl. rewrite <- app_assoc. split; [reflexivity | now right].
Qed.

(** The events of one call of [handleGraphParams], step by step. *)
Lemma handleGraphParams_events
  (maxDays : nat) (Agencies_0_id : string) (reducer : State -> Action -> State)
  (params : SelectionParams) (w : World) :
  let oldParams := graphParams (store w) in
  let newParams :=
    graphParams (reducer (store w) (RECEIVED_GRAPH_PARAMS params)) in
  let changed :=
    string_neq (date (firstDateRange oldParams)) (date (firstDateRange newParams))
    || strict_neq (routeId oldParams) (routeId newParams)
    || strict_neq (agencyId oldParams) (agencyId newParams) in
  let agencyJson := JSON_stringify (agencyVariables maxDays Agencies_0_id newParams) in
  let routeJson := JSON_stringify (routeVariables maxDays Agencies_0_id newParams) in
  let tripJson := JSON_stringify (tripVariables maxDays newParams) in
  exists A R,
    trace (run (handleGraphParams maxDays Agencies_0_id reducer params) w)
    = (trace w
       ++ [Dispatched (RECEIVED_GRAPH_PARAMS params)]
       ++ (if changed then [Dispatched (RECEIVED_ARRIVALS JNull Null)] else [])
       ++ A ++ R
       ++ (if complete newParams
           then [Dispatched REQUEST_TRIP_METRICS; Sent (GraphQL TripMetrics tripJson)]
           else [Dispatched (RECEIVED_TRIP_METRICS JNull)]))%list
    /\ (A = []
        \/ (date (firstDateRange newParams) <> EmptyString
            /\ A = [Dispatched (REQUEST_AGENCY_METRICS agencyJson);
                    Sent (GraphQL AgencyMetrics agencyJson)]))
    /\ (R = []
        \/ (truthy_str (agencyId newParams) && truthy_str (routeId newParams) = true
            /\ R = [Dispatched (REQUEST_ROUTE_METRICS routeJson);
                    Sent (GraphQL RouteMetrics routeJson)])).
Proof.
  intros oldParams newParams changed agencyJson routeJson tripJson.
  set (w1 := run (dispatch reducer (RECEIVED_GRAPH_PARAMS params)) w).
  set (w2 := run (when changed (resetArrivals reducer)) w1).
  set (w3 := run (when (truthy (JStr (date (firstDateRange newParams))))
                    (fetchAgencyMetrics maxDays Agencies_0_id reducer newParams)) w2).
  set (w4 := run (when (truthy_str (agencyId newParams)
                        && truthy_str (routeId newParams))
                    (fetchRouteMetrics maxDays Agencies_0_id reducer newParams)) w3).
  assert (Hrun : run (handleGraphParams maxDays Agencies_0_id reducer params) w
                 = run (if complete newParams
                        then fetchTripMetrics maxDays reducer newParams
                        else resetTripMetrics reducer) w4).
  { unfold handleGraphParams. unfold run at 1, bind at 1 2 3, getState.
    simpl. fold oldParams newParams changed.
    change (snd (?m ?x)) with (run m x).
    rewrite !run_seq. reflexivity. }
  assert (H2 : trace w2
               = (trace w1 ++ (if changed
                               then [Dispatched (RECEIVED_ARRIVALS JNull Null)]
                               else []))%list).
  { unfold w2. destruct changed; [reflexivity|].
    rewrite run_when_false. now rewrite app_nil_r. }
  assert (H3 : exists A, trace w3 = (trace w2 ++ A)%list
    /\ (A = [] \/ (date (firstDateRange newParams) <> EmptyString
                   /\ A = [Dispatched (REQUEST_AGENCY_METRICS agencyJson);
                           Sent (GraphQL AgencyMetrics agencyJson)]))).
  { unfold w3. simpl truthy.
    destruct (String.eqb_spec (date (firstDateRange newParams)) EmptyString)
      as [E|E]; simpl negb.
    - exists []. rewrite run_when_false. split; [now rewrite app_nil_r | now left].
    - destruct (fetchAgencyMetrics_events maxDays Agencies_0_id reducer newParams w2)
        as [A [HA [HA'|HA']]]; exists A; (split; [exact HA|]);
        [now left | right; now split]. }
  assert (H4 : exists R, trace w4 = (trace w3 ++ R)%list
    /\ (R = [] \/ (truthy_str (agencyId newParams)
                   && truthy_str (routeId newParams) = true
                   /\ R = [Dispatched (REQUEST_ROUTE_METRICS routeJson);
                           Sent (GraphQL RouteMetrics routeJson)]))).
  { unfold w4.
    destruct (truthy_str (agencyId newParams) && truthy_str (routeId newParams)).
    - destruct (fetchRouteMetrics_events maxDays Agencies_0_id reducer newParams w3)
        as [R [HR [HR'|HR']]]; exists R; (split; [exact HR|]);
        [now left | right; now split].
    - exists []. rewrite run_when_false. split; [now rewrite app_nil_r | now left]. }
  destruct H3 as [A [H3 HA]]. destruct H4 as [R [H4 HR]].
  exists A, R. split; [|split; [exact HA | exact HR]].
  rewrite Hrun.
  assert (H1 : trace w1 = (trace w ++ [Dispatched (RECEIVED_GRAPH_PARAMS params)])%list)
    by reflexivity.
  destruct (complete newParams).
  - rewrite (fetchTripMetrics_always maxDays reducer newParams w4). simpl trace.
    rewrite H4, H3, H2, H1. fold tripJson. rewrite <- !app_assoc. reflexivity.
  - unfold resetTripMetrics, run, dispatch. simpl.
    rewrite H4, H3, H2, H1. rewrite <- !app_assoc. reflexivity.
Qed.

Ltac split_apps :=
  repeat match goal with
         | |- Forall _ (_ ++ _) => apply Forall_app; split
         end.

Ltac slices :=
  repeat (apply Forall_cons || apply Forall_nil);
  unfold in_metrics_slice, in_slice;
  cbn [slice_of_event slice_of_action slice_of_request slice_of_scope];
  try (intro; discriminate); try (intros _; reflexivity);
  try (right; left; reflexivity); try (right; right; left; reflexivity);
  try (right; right; right; reflexivity); try (left; reflexivity);
  try (right; left; reflexivity); try (right; right; reflexivity).

(** [handleGraphParams] never fetches the arrival archive: after
    [RECEIVED_GRAPH_PARAMS], each event of the call is the reset of the
    arrivals or belongs to the agency, route or trip metrics. *)
Theorem handleGraphParams_never_requests_arrivals
  (maxDays : nat) (Agencies_0_id : string) (reducer : State -> Action -> State)
  (params : SelectionParams) (w : World) :
  exists rest,
    trace (run (handleGraphParams maxDays Agencies_0_id reducer params) w)
    = (trace w ++ Dispatched (RECEIVED_GRAPH_PARAMS params) :: rest)%list
    /\ Forall (fun e => e = Dispatched (RECEIVED_ARRIVALS JNull Null)
                        \/ in_metrics_slice e) rest.
Proof.
  destruct (handleGraphParams_events maxDays Agencies_0_id reducer params w)
    as (A & R & Htrace & HA & HR).
  cbv zeta in Htrace. eexists. split; [rewrite Htrace; cbn [app]; reflexivity|].
  split_apps.
  - match goal with |- context [if ?c then _ else _] => destruct c end; slices.
  - destruct HA as [-> | [_ ->]]; slices.
  - destruct HR as [-> | [_ ->]]; slices.
  - match goal with |- context [if ?c then _ else _] => destruct c end; slices.
Qed.

(** When the stored date, route and agency are the same before and after
    [RECEIVED_GRAPH_PARAMS], the call dispatches no arrivals action at all:
    the arrival archive in the store is kept. *)
Theorem handleGraphParams_keeps_arrivals_when_unchanged
  (maxDays : nat) (Agencies_0_id : string) (reducer : State -> Action -> State)
  (params : SelectionParams) (w : World) :
  let oldParams := graphParams (store w) in
  let newParams :=
    graphParams (reducer (store w) (RECEIVED_GRAPH_PARAMS params)) in
  date (firstDateRange oldParams) = date (firstDateRange newParams) ->
  routeId oldParams = routeId newParams ->
  agencyId oldParams = agencyId newParams ->
  exists rest,
    trace (run (handleGraphParams maxDays Agencies_0_id reducer params) w)
    = (trace w ++ Dispatched (RECEIVED_GRAPH_PARAMS params) :: rest)%list
    /\ Forall in_metrics_slice rest.
Proof.
  intros oldParams newParams Hdate Hroute Hagency.
  destruct (handleGraphParams_events maxDays Agencies_0_id reducer params w)
    as (A & R & Htrace & HA & HR).
  cbv zeta in *. fold oldParams newParams in Htrace.
  assert (Hsame :
    string_neq (date (firstDateRange oldParams)) (date (firstDateRange newParams))
    || strict_neq (routeId oldParams) (routeId newParams)
    || strict_neq (agencyId oldParams) (agencyId newParams) = false).
  { rewrite Hdate, Hroute, Hagency. unfold string_neq, strict_neq.
    rewrite String.eqb_refl.
    rewrite !(proj2 (jsstr_eqb_eq _ _) eq_refl). reflexivity. }
  rewrite Hsame in Htrace.
  eexists. split; [rewrite Htrace; reflexivity|].
  simpl. split_apps.
  - destruct HA as [-> | [_ ->]]; slices.
  - destruct HR as [-> | [_ ->]]; slices.
  - match goal with |- context [if ?c then _ else _] => destruct c end; slices.
Qed.

Lemma handleGraphParams_keeps_arrivals_when_unchanged_witness :
  let old := selection "sf-muni" "12" (range "2023-03-06" "2023-03-10" monToFri) in
  let new := selection "sf-muni" "12" (range "2023-03-01" "2023-03-10" everyDay) in
  date (firstDateRange (graphParams (store (initialWorld old))))
  = date (firstDateRange (graphParams (rootReducer (store (initialWorld old))
                                                   (RECEIVED_GRAPH_PARAMS new))))
  /\ routeId (graphParams (store (initialWorld old)))
     = routeId (graphParams (rootReducer (store (initialWorld old))
                                         (RECEIVED_GRAPH_PARAMS new)))
  /\ agencyId (graphParams (store (initialWorld old)))
     = agencyId (graphParams (rootReducer (store (initialWorld old))
                                          (RECEIVED_GRAPH_PARAMS new)))
  /\ exists rest,
       trace (run (handleGraphParams 90 "sf-muni" rootReducer new) (initialWorld old))
       = Dispatched (RECEIVED_GRAPH_PARAMS new) :: rest
       /\ Forall in_metrics_slice rest.
Proof.
  cbv zeta. split; [reflexivity|]. split; [reflexivity|]. split; [reflexivity|].
  apply (handleGraphParams_keeps_arrivals_when_unchanged 90 "sf-muni" rootReducer
           (selection "sf-muni" "12" (range "2023-03-01" "2023-03-10" everyDay))
           (initialWorld
              (selection "sf-muni" "12" (range "2023-03-06" "2023-03-10" monToFri))));
    reflexivity.
Defined.

(** The last thing [handleGraphParams] does concerns the trip metrics, and
    it is the only thing that does: when the stored selection names agency,
    route, direction and both stops, the Requested action followed by the
    request with the trip variables; otherwise the reset of the trip result,
    and no trip request. *)
Theorem handleGraphParams_trip_request_or_reset
  (maxDays : nat) (Agencies_0_id : string) (reducer : State -> Action -> State)
  (params : SelectionParams) (w : World) :
  let newParams :=
    graphParams (reducer (store w) (RECEIVED_GRAPH_PARAMS params)) in
  exists before,
    trace (run (handleGraphParams maxDays Agencies_0_id reducer params) w)
    = (trace w ++ before
       ++ (if complete newParams
           then [Dispatched REQUEST_TRIP_METRICS;
                 Sent (GraphQL TripMetrics
                         (JSON_stringify (tripVariables maxDays newParams)))]
           else [Dispatched (RECEIVED_TRIP_METRICS JNull)]))%list
    /\ Forall (fun e => ~ in_slice TripSlice e) before.
Proof.
  intro newParams.
  destruct (handleGraphParams_events maxDays Agencies_0_id reducer params w)
    as (A & R & Htrace & HA & HR).
  cbv zeta in *. fold newParams in Htrace.
  set (changed := _ || _ || _) in Htrace.
  exists ([Dispatched (RECEIVED_GRAPH_PARAMS params)]
          ++ (if changed then [Dispatched (RECEIVED_ARRIVALS JNull Null)] else [])
          ++ A ++ R)%list.
  split.
  - rewrite Htrace, <- !app_assoc. reflexivity.
  - split_apps.
    + slices.
    + destruct changed; slices.
    + destruct HA as [-> | [_ ->]]; slices.
    + destruct HR as [-> | [_ ->]]; slices.
Qed.

(** The gates of the fetches.  One call issues at most three network calls.
    With an empty date nothing of the agency metrics is dispatched or
    requested; when [agencyId] or [routeId] is missing, nothing of the route
    metrics is, the trip metrics are only reset, and at most the agency
    request goes out. *)
Theorem handleGraphParams_gates
  (maxDays : nat) (Agencies_0_id : string) (reducer : State -> Action -> State)
  (params : SelectionParams) (w : World) :
  let newParams :=
    graphParams (reducer (store w) (RECEIVED_GRAPH_PARAMS params)) in
  exists added,
    trace (run (handleGraphParams maxDays Agencies_0_id reducer params) w)
    = (trace w ++ added)%list
    /\ (network_calls added <= 3)%nat
    /\ (date (firstDateRange newParams) = EmptyString ->
        Forall (fun e => ~ in_slice AgencySlice e) added)
    /\ (truthy_str (agencyId newParams) && truthy_str (routeId newParams) = false ->
        Forall (fun e => ~ in_slice RouteSlice e) added
        /\ Forall (fun e => in_slice TripSlice e ->
                            e = Dispatched (RECEIVED_TRIP_METRICS JNull)) added
        /\ (network_calls added <= 1)%nat).
Proof.
  intro newParams.
  destruct (handleGraphParams_events maxDays Agencies_0_id reducer params w)
    as (A & R & Htrace & HA & HR).
  cbv zeta in *. fold newParams in Htrace, HA, HR.
  eexists. split; [exact Htrace|].
  set (changed := _ || _ || _) in *.
  assert (HnA : (network_calls A <= 1)%nat)
    by (destruct HA as [-> | [_ ->]]; unfold network_calls; simpl; lia).
  assert (HnR : (network_calls R <= 1)%nat)
    by (destruct HR as [-> | [_ ->]]; unfold network_calls; simpl; lia).
  split; [|split].
  - rewrite !network_calls_app.
    destruct changed; destruct (complete newParams);
      unfold network_calls at 1 2 5; simpl; lia.
  - intro Hdate.
    destruct HA as [-> | [Hne _]]; [|contradiction].
    split_apps.
    + slices.
    + destruct changed; slices.
    + slices.
    + destruct HR as [-> | [_ ->]]; slices.
    + destruct (complete newParams); slices.
  - intro Hgate.
    destruct HR as [-> | [Hyes _]]; [|congruence].
    assert (Hincomplete : complete newParams = false)
      by (unfold complete; rewrite Hgate; reflexivity).
    rewrite Hincomplete. split; [|split].
    + split_apps.
      * slices.
      * destruct changed; slices.
      * destruct HA as [-> | [_ ->]]; slices.
      * slices.
      * slices.
    + split_apps.
      * slices.
      * destruct changed; slices.
      * destruct HA as [-> | [_ ->]]; slices.
      * slices.
      * slices.
    + rewrite !network_calls_app.
      destruct changed; unfold network_calls at 1 2 4 5; simpl; lia.
Qed.

(* ------------------------------------------------------------------ *)
(** ** The download *)

(** The file name of a download whose range expands to no date (no weekday
    flag set) names [undefined] twice; and when the range expands to two
    dates or more, the name holds the first two of them, whatever follows. *)
Theorem downloadFilename_edges
  (maxDays : nat) (Agencies_0_id : string) (params : SelectionParams) :
  ((forall i, nth i (daysOfTheWeek (firstDateRange params)) false = false) ->
   download_filename (fetchDownload maxDays Agencies_0_id params)
   = "arrivals_" ++ to_String (routeId params) ++ "_undefined_undefined.csv")
  /\ (forall d0 d1 rest,
        computeDates maxDays (firstDateRange params) = d0 :: d1 :: rest ->
        download_filename (fetchDownload maxDays Agencies_0_id params)
        = "arrivals_" ++ to_String (routeId params) ++ "_" ++ d0 ++ "_" ++ d1
          ++ ".csv")
  /\ (forall d0,
        computeDates maxDays (firstDateRange params) = [d0] ->
        download_filename (fetchDownload maxDays Agencies_0_id params)
        = "arrivals_" ++ to_String (routeId params) ++ "_" ++ d0 ++ ".csv").
Proof.
  unfold fetchDownload, downloadFilename. simpl download_filename.
  split; [|split].
  - intro H. rewrite (computeDates_unflagged maxDays _ H). reflexivity.
  - intros d0 d1 rest H. rewrite H. reflexivity.
  - intros d0 H. rewrite H. reflexivity.
Qed.

Lemma downloadFilename_edges_witness :
  let none := selection "sf-muni" "12" (range "2023-03-06" "2023-03-10" noDay) in
  let week := selection "sf-muni" "12" (range "2023-03-06" "2023-03-10" monToFri) in
  (forall i, nth i (daysOfTheWeek (firstDateRange none)) false = false)
  /\ download_filename (fetchDownload 90 "sf-muni" none)
     = "arrivals_12_undefined_undefined.csv"
  /\ computeDates 90 (firstDateRange week)
     = "2023-03-06" :: "2023-03-07" :: ["2023-03-08"; "2023-03-09"; "2023-03-10"]
  /\ download_filename (fetchDownload 90 "sf-muni" week)
     = "arrivals_12_2023-03-06_2023-03-07.csv".
Proof.
  cbv zeta.
  split; [exact nth_noDay|].
  split.
  - exact (proj1 (downloadFilename_edges 90 "sf-muni"
                    (selection "sf-muni" "12" (range "2023-03-06" "2023-03-10" noDay)))
                 nth_noDay).
  - split; [reflexivity|].
    exact (proj1 (proj2 (downloadFilename_edges 90 "sf-muni"
                           (selection "sf-muni" "12"
                              (range "2023-03-06" "2023-03-10" monToFri))))
                 "2023-03-06" "2023-03-07"
                 ["2023-03-08"; "2023-03-09"; "2023-03-10"] eq_refl).
Defined.

(** The download reads neither [params.agencyId] nor what the second date
    range holds: two selections that agree on everything else, and on
    whether there is a second range, give the same request and the same file
    name.  The second range only sets [dualDateRange]; no [dates2] is
    sent. *)
Theorem fetchDownload_ignores_agency_and_second_range
  (maxDays : nat) (Agencies_0_id : string) (p q : SelectionParams) :
  routeId p = routeId q -> directionId p = directionId q ->
  startStopId p = startStopId q -> endStopId p = endStopId q ->
  firstDateRange p = firstDateRange q ->
  is_some (secondDateRange p) = is_some (secondDateRange q) ->
  fetchDownload maxDays Agencies_0_id p = fetchDownload maxDays Agencies_0_id q
  /\ field "agencyId" (downloadVariables maxDays Agencies_0_id p)
     = JStr Agencies_0_id
  /\ field "dualDateRange" (downloadVariables maxDays Agencies_0_id p)
     = JBool (is_some (secondDateRange p))
  /\ assoc "dates2" (downloadVariables maxDays Agencies_0_id p) = None.
Proof.
  intros Hr Hd Hs He Hf H2.
  split; [|repeat split].
  unfold fetchDownload, downloadFilename, downloadVariables.
  rewrite Hr, Hd, Hs, He, Hf, H2. reflexivity.
Qed.

Lemma fetchDownload_ignores_agency_and_second_range_witness :
  let first := range "2023-03-06" "2023-03-10" monToFri in
  let p := {| agencyId := Str "sf-muni"; routeId := Str "12";
              directionId := Str "1"; startStopId := Str "4015";
              endStopId := Str "4016"; firstDateRange := first;
              secondDateRange := Some (range "2023-02-06" "2023-02-10" monToFri) |} in
  let q := {| agencyId := Str "trimet"; routeId := Str "12";
              directionId := Str "1"; startStopId := Str "4015";
              endStopId := Str "4016"; firstDateRange := first;
              secondDateRange := Some (range "2022-01-01" "2022-01-02" everyDay) |} in
  routeId p = routeId q /\ directionId p = directionId q
  /\ startStopId p = startStopId q /\ endStopId p = endStopId q
  /\ firstDateRange p = firstDateRange q
  /\ is_some (secondDateRange p) = is_some (secondDateRange q)
  /\ fetchDownload 90 "sf-muni" p = fetchDownload 90 "sf-muni" q.
Proof.
  cbv zeta. repeat (split; [reflexivity|]).
  apply (fetchDownload_ignores_agency_and_second_range 90 "sf-muni");
    reflexivity.
Defined.

(* ------------------------------------------------------------------ *)
(** ** The routes and the query of the location *)

Lemma assoc_set_prop_same fields key v :
  assoc key (set_prop fields key v) = Some v.
Proof.
  induction fields as [|[k x] rest IH]; simpl.
  - now rewrite String.eqb_refl.
  - destruct (String.eqb k key) eqn:E; simpl; rewrite E; [reflexivity | exact IH].
Qed.

Lemma assoc_set_prop_other fields key v key' :
  key' <> key -> assoc key' (set_prop fields key v) = assoc key' fields.
Proof.
  intro Hne. induction fields as [|[k x] rest IH]; simpl.
  - destruct (String.eqb_spec key key'); [congruence | reflexivity].
  - destruct (String.eqb_spec k key) as [->|Hk]; simpl.
    + destruct (String.eqb_spec key key'); [congruence | reflexivity].
    + destruct (String.eqb k key'); [reflexivity | exact IH].
Qed.

Lemma annotateRoutes_from_length i agencyId routes :
  List.length (annotateRoutes_from i agencyId routes) = List.length routes.
Proof.
  revert i; induction routes as [|r rest IH]; intro i; simpl; [reflexivity|].
  now rewrite IH.
Qed.

Lemma annotateRoutes_from_nth i agencyId routes n route :
  nth_error routes n = Some route ->
  nth_error (annotateRoutes_from i agencyId routes) n
  = Some (set_prop (set_prop route "agencyId" (JStr agencyId))
                   "routeIndex" (JNum (Z.of_nat (i + n)))).
Proof.
  revert i n; induction routes as [|r rest IH]; intros i n H.
  - destruct n; discriminate.
  - destruct n as [|n]; simpl in *.
    + injection H as ->. now rewrite Nat.add_0_r.
    + rewrite (IH (S i) n H).
      replace (S i + n)%nat with (i + S n)%nat by lia. reflexivity.
Qed.

(** The loop of [fetchRoutes] over the received routes keeps their number
    and order, gives the route at position [n] the index [n] and the
    configured agency, whether or not it had these properties before, and
    leaves every other property of every route as it was. *)
Theorem annotateRoutes_indexes_and_preserves
  (agencyId : string) (routes : list (list (string * jsval))) :
  List.length (annotateRoutes agencyId routes) = List.length routes
  /\ forall n route,
       nth_error routes n = Some route ->
       exists annotated,
         nth_error (annotateRoutes agencyId routes) n = Some annotated
         /\ assoc "routeIndex" annotated = Some (JNum (Z.of_nat n))
         /\ assoc "agencyId" annotated = Some (JStr agencyId)
         /\ forall key, key <> "agencyId" -> key <> "routeIndex" ->
                        assoc key annotated = assoc key route.
Proof.
  split; [apply annotateRoutes_from_length|].
  intros n route H. eexists. split.
  - unfold annotateRoutes. rewrite (annotateRoutes_from_nth 0 agencyId routes n route H).
    reflexivity.
  - split; [apply assoc_set_prop_same|]. split.
    + rewrite assoc_set_prop_other by discriminate. apply assoc_set_prop_same.
    + intros key Ha Hi. now rewrite !assoc_set_prop_other.
Qed.

Lemma assoc_absent key fields :
  ~ In key (map fst fields) -> assoc key fields = None.
Proof.
  induction fields as [|[k x] rest IH]; simpl; intro H; [reflexivity|].
  destruct (String.eqb_spec k key) as [->|Hk]; [exfalso; apply H; now left|].
  apply IH. intro Hin. apply H. now right.
Qed.

Lemma assoc_spread_into key props :
  distinct_keys props ->
  forall target,
    assoc key (spread_into target props)
    = match assoc key props with
      | Some v => Some v
      | None => assoc key target
      end.
Proof.
  unfold distinct_keys, spread_into.
  induction props as [|[k x] rest IH]; simpl; intros Hnd target; [reflexivity|].
  inversion Hnd as [|? ? Hnotin Hrest]; subst.
  rewrite (IH Hrest).
  destruct (String.eqb_spec k key) as [->|Hk].
  - rewrite (assoc_absent key rest Hnotin). apply assoc_set_prop_same.
  - destruct (assoc key rest); [reflexivity|].
    apply assoc_set_prop_other. congruence.
Qed.

(** [updateQuery] keeps the type and the payload of the location and merges
    the queries: a key of [queryParams] takes the value given there, also
    when that value is [undefined]; any other key keeps the value it has in
    the current query; and with no current query the new query holds what
    [queryParams] holds. *)
Theorem updateQuery_merges (currentLocation : Location) (queryParams : jsval) :
  distinct_keys (own_properties (query currentLocation)) ->
  distinct_keys (own_properties queryParams) ->
  type (updateQuery currentLocation queryParams) = type currentLocation
  /\ payload (updateQuery currentLocation queryParams) = payload currentLocation
  /\ query (updateQuery currentLocation queryParams)
     = JObj (newQuery currentLocation queryParams)
  /\ forall key,
       assoc key (newQuery currentLocation queryParams)
       = match assoc key (own_properties queryParams) with
         | Some v => Some v
         | None => assoc key (own_properties (query currentLocation))
         end.
Proof.
  intros Hq Hp. repeat split. intro key. unfold newQuery.
  rewrite (assoc_spread_into key _ Hp), (assoc_spread_into key _ Hq).
  destruct (assoc key (own_properties queryParams)); [reflexivity|].
  destruct (assoc key (own_properties (query currentLocation))); reflexivity.
Qed.

Lemma updateQuery_merges_witness :
  let currentLocation :=
    {| type := JStr "ROUTESCREEN"; payload := JObj [("routeId", JStr "12")];
       query := JObj [("date", JStr "2023-03-06"); ("startTime", JStr "07:00")] |} in
  let queryParams :=
    JObj [("startTime", JUndefined); ("daysOfTheWeek", JStr "1-5")] in
  distinct_keys (own_properties (query currentLocation))
  /\ distinct_keys (own_properties queryParams)
  /\ query (updateQuery currentLocation queryParams)
     = JObj [("date", JStr "2023-03-06"); ("startTime", JUndefined);
             ("daysOfTheWeek", JStr "1-5")]
  /\ assoc "startTime" (newQuery currentLocation queryParams) = Some JUndefined
  /\ assoc "date" (newQuery currentLocation queryParams) = Some (JStr "2023-03-06").
Proof.
  cbv zeta.
  assert (Hq : distinct_keys [("date", JStr "2023-03-06"); ("startTime", JStr "07:00")]).
  { unfold distinct_keys. simpl. repeat constructor; simpl; intuition discriminate. }
  assert (Hp : distinct_keys [("startTime", JUndefined); ("daysOfTheWeek", JStr "1-5")]).
  { unfold distinct_keys. simpl. repeat constructor; simpl; intuition discriminate. }
  split; [exact Hq|]. split; [exact Hp|]. split; [reflexivity|].
  destruct (updateQuery_merges
              {| type := JStr "ROUTESCREEN"; payload := JObj [("routeId", JStr "12")];
                 query := JObj [("date", JStr "2023-03-06");
                                ("startTime", JStr "07:00")] |}
              (JObj [("startTime", JUndefined); ("daysOfTheWeek", JStr "1-5")])
              Hq Hp) as (_ & _ & _ & Hkeys).
  split; [exact (Hkeys "startTime") | exact (Hkeys "date")].
Defined.

(* ------------------------------------------------------------------ *)
(** ** Responses that arrive late *)

(** A request that has been superseded is neither cancelled nor is its
    response dropped: when a second route fetch with other variables follows
    a first one, and the response to the first arrives afterwards, the chain
    dispatches the Received action with the first fingerprint although the
    store records the second. *)
Theorem late_route_response_is_dispatched
  (maxDays : nat) (Agencies_0_id TypeError_message : string)
  (reducer : State -> Action -> State)
  (p q : SelectionParams) (responseData : jsval) (w : World) :
  let jsonP := JSON_stringify (routeVariables maxDays Agencies_0_id p) in
  let jsonQ := JSON_stringify (routeVariables maxDays Agencies_0_id q) in
  (forall s j, variablesJson (routeMetrics (reducer s (REQUEST_ROUTE_METRICS j)))
               = Str j) ->
  jsonP <> jsonQ ->
  variablesJson (routeMetrics (store w)) <> Str jsonP ->
  truthy (and_then responseData "errors") = false ->
  let w1 := run (fetchRouteMetrics maxDays Agencies_0_id reducer p) w in
  let w2 := run (fetchRouteMetrics maxDays Agencies_0_id reducer q) w1 in
  let w3 := run (settle TypeError_message reducer (GraphQL RouteMetrics jsonP)
                        (Fulfilled responseData)) w2 in
  variablesJson (routeMetrics (store w2)) = Str jsonQ
  /\ trace w3
     = (trace w
        ++ [Dispatched (REQUEST_ROUTE_METRICS jsonP);
            Sent (GraphQL RouteMetrics jsonP);
            Dispatched (REQUEST_ROUTE_METRICS jsonQ);
            Sent (GraphQL RouteMetrics jsonQ);
            Dispatched (RECEIVED_ROUTE_METRICS jsonP
                          (child (child (and_then responseData "data") "agency")
                                 "route"))])%list.
Proof.
  intros jsonP jsonQ Hrecords Hne Hstart Hok w1 w2 w3.
  assert (H1 : w1 = {| store := reducer (store w) (REQUEST_ROUTE_METRICS jsonP);
                       trace := (trace w ++ [Dispatched (REQUEST_ROUTE_METRICS jsonP)])
                                ++ [Sent (GraphQL RouteMetrics jsonP)] |})
    by (apply fetchRouteMetrics_issue; exact Hstart).
  assert (Hmid : variablesJson (routeMetrics (store w1)) <> Str jsonQ).
  { rewrite H1. simpl. rewrite Hrecords. congruence. }
  assert (H2 : w2 = {| store := reducer (store w1) (REQUEST_ROUTE_METRICS jsonQ);
                       trace := (trace w1 ++ [Dispatched (REQUEST_ROUTE_METRICS jsonQ)])
                                ++ [Sent (GraphQL RouteMetrics jsonQ)] |})
    by (apply fetchRouteMetrics_issue; exact Hmid).
  split.
  - rewrite H2. simpl. apply Hrecords.
  - unfold w3, settle, settled, received, routeMetricsReceived.
    rewrite Hok. unfold run, dispatch. simpl trace.
    rewrite H2. simpl trace. rewrite H1. simpl trace.
    rewrite <- !app_assoc. reflexivity.
Qed.

Lemma late_route_response_is_dispatched_witness :
  let p := selection "sf-muni" "12" (range "2023-03-06" "2023-03-10" monToFri) in
  let q := selection "sf-muni" "14" (range "2023-03-06" "2023-03-10" monToFri) in
  let jsonP := JSON_stringify (routeVariables 90 "sf-muni" p) in
  let jsonQ := JSON_stringify (routeVariables 90 "sf-muni" q) in
  let payload := JObj [("data", JObj [("agency", JObj [("route", JStr "12")])])] in
  (forall s j, variablesJson (routeMetrics (rootReducer s (REQUEST_ROUTE_METRICS j)))
               = Str j)
  /\ jsonP <> jsonQ
  /\ variablesJson (routeMetrics (store (initialWorld p))) <> Str jsonP
  /\ truthy (and_then payload "errors") = false
  /\ variablesJson
       (routeMetrics
          (store (run (fetchRouteMetrics 90 "sf-muni" rootReducer q)
                      (run (fetchRouteMetrics 90 "sf-muni" rootReducer p)
                           (initialWorld p)))))
     = Str jsonQ.
Proof.
  cbv zeta.
  assert (Hrecords : forall s j,
    variablesJson (routeMetrics (rootReducer s (REQUEST_ROUTE_METRICS j))) = Str j)
    by reflexivity.
  assert (Hne :
    JSON_stringify (routeVariables 90 "sf-muni"
      (selection "sf-muni" "12" (range "2023-03-06" "2023-03-10" monToFri)))
    <> JSON_stringify (routeVariables 90 "sf-muni"
      (selection "sf-muni" "14" (range "2023-03-06" "2023-03-10" monToFri))))
    by (vm_compute; discriminate).
  assert (Hstart :
    variablesJson (routeMetrics (store (initialWorld
      (selection "sf-muni" "12" (range "2023-03-06" "2023-03-10" monToFri)))))
    <> Str (JSON_stringify (routeVariables 90 "sf-muni"
      (selection "sf-muni" "12" (range "2023-03-06" "2023-03-10" monToFri)))))
    by discriminate.
  split; [exact Hrecords|]. split; [exact Hne|]. split; [exact Hstart|].
  split; [reflexivity|].
  exact (proj1 (late_route_response_is_dispatched 90 "sf-muni"
                  "Cannot read properties of undefined" rootReducer
                  (selection "sf-muni" "12" (range "2023-03-06" "2023-03-10" monToFri))
                  (selection "sf-muni" "14" (range "2023-03-06" "2023-03-10" monToFri))
                  (JObj [("data", JObj [("agency", JObj [("route", JStr "12")])])])
                  (initialWorld
                     (selection "sf-muni" "12"
                        (range "2023-03-06" "2023-03-10" monToFri)))
                  Hrecords Hne Hstart eq_refl)).
Defined.
